(** * The IBKR converter of Export-To-Ghostfolio

    A shallow embedding of [src/converters/ibkrConverter.ts]: the header
    based schema detection, the field cast, the ISIN override table, the
    per-record identity resolution and the dividend / tax reconciliation
    loop, followed by the properties the specification states about them.

    Conventions of the embedding.
    - A JavaScript string is a [string]: a sequence of code units, each of
      them an [ascii] character.
    - A JavaScript number is a value of an abstract type [num]; the
      converter only moves numbers around, so the arithmetic ([parseFloat],
      [Math.abs], division, [toFixed]) is a parameter, the [Runtime] class.
      [Exact.runtime] instantiates it with exact rationals to run the model
      on concrete rows.
    - JavaScript [undefined] is [None] of an [option].
    - [Map<string, string>] is a [gmap string string], [Set<string>] a
      [gset string], the array [result.activities] a [list] read with
      [list_find] and updated in place with [alter]. *)

From Stdlib Require Import Ascii QArith Qabs.
From stdpp Require Import base option list strings pretty gmap.

#[global] Set Warnings "-clear-no-such-hyp".

Local Open Scope nat_scope.

(** ** JavaScript string primitives *)

Module Js.

(** The line feed, ['\n']. *)
Definition LF : string := String "010"%char EmptyString.

(** A string is truthy when it is not empty. *)
Definition truthy (s : string) : bool :=
  match s with
  | EmptyString => false
  | String _ _ => true
  end.

(** [s.startsWith(p)]. *)
Definition startsWith (p s : string) : bool := String.prefix p s.

(** [s.indexOf(sub) > -1]. *)
Fixpoint includes (sub s : string) : bool :=
  if String.prefix sub s then true
  else match s with
       | EmptyString => false
       | String _ s' => includes sub s'
       end.

(** [s.substring(0, n)]. *)
Definition substring0 (n : nat) (s : string) : string := String.substring 0 n s.

(** White space of [String.prototype.trim] among the code units below 256:
    TAB, LF, VT, FF, CR, SPACE and NBSP. *)
Definition isWhiteSpace (c : ascii) : bool :=
  match nat_of_ascii c with
  | 9 | 10 | 11 | 12 | 13 | 32 | 160 => true
  | _ => false
  end.

Fixpoint trimStart (s : string) : string :=
  match s with
  | EmptyString => EmptyString
  | String c s' => if isWhiteSpace c then trimStart s' else s
  end.

(** [trimEnd] keeps a character when it is not white space or when
    something remains after it. *)
Fixpoint trimEnd (s : string) : string :=
  match s with
  | EmptyString => EmptyString
  | String c s' =>
      match trimEnd s' with
      | EmptyString => if isWhiteSpace c then EmptyString else String c EmptyString
      | rest => String c rest
      end
  end.

(** [s.trim()]. *)
Definition trim (s : string) : string := trimEnd (trimStart s).

(** [splitOn sep skip cur s] scans [s] for the non-empty separator [sep];
    [cur] is the piece being read, reversed, and [skip] counts the code
    units of a separator occurrence that are still to be passed over. *)
Fixpoint splitOn (sep : string) (skip : nat) (cur : string) (s : string) : list string :=
  match s with
  | EmptyString => [String.rev cur]
  | String c s' =>
      match skip with
      | S k => splitOn sep k cur s'
      | O =>
          if String.prefix sep s
          then String.rev cur :: splitOn sep (String.length sep - 1) EmptyString s'
          else splitOn sep 0 (String c cur) s'
      end
  end.

(** [s.split(sep)]: with an empty separator the code units of [s], one
    string each; otherwise the pieces between the occurrences of [sep]. *)
Definition split (sep s : string) : list string :=
  match sep with
  | EmptyString => (fun c => String c EmptyString) <$> String.list_ascii_of_string s
  | String _ _ => splitOn sep 0 EmptyString s
  end.

(** The number of code units of [s] equal to [c]. *)
Fixpoint occurrences (c : ascii) (s : string) : nat :=
  match s with
  | EmptyString => 0
  | String d s' => (if decide (c = d) then 1 else 0) + occurrences c s'
  end.

End Js.

(** ** The regular expression [/(\d+(\.\d+)?)(?= PER SHARE)/]

    A backtracking matcher in continuation passing style, one function per
    construct of the pattern.  The accumulator holds the matched text in
    reverse; a continuation returns [None] to make the matcher backtrack. *)

Module PerShare.

(** [\d]. *)
Definition isDigit (c : ascii) : bool :=
  (48 <=? nat_of_ascii c) && (nat_of_ascii c <=? 57).

(** Greedy [\d*]: takes a digit and goes on, and gives the digit back when
    the rest of the pattern fails after it. *)
Fixpoint digitsStar {R} (acc : string) (s : string)
    (k : string -> string -> option R) : option R :=
  match s with
  | String c s' =>
      if isDigit c
      then match digitsStar (String c acc) s' k with
           | Some r => Some r
           | None => k acc s
           end
      else k acc s
  | EmptyString => k acc s
  end.

(** Greedy [\d+]. *)
Definition digitsPlus {R} (acc : string) (s : string)
    (k : string -> string -> option R) : option R :=
  match s with
  | String c s' => if isDigit c then digitsStar (String c acc) s' k else None
  | EmptyString => None
  end.

(** [(\.\d+)?]: first with the group, then without it. *)
Definition fractionOpt {R} (acc : string) (s : string)
    (k : string -> string -> option R) : option R :=
  let withGroup :=
    match s with
    | String "."%char s' => digitsPlus (String "."%char acc) s' k
    | _ => None
    end in
  match withGroup with
  | Some r => Some r
  | None => k acc s
  end.

(** [(?= PER SHARE)]: consumes nothing. *)
Definition lookahead (acc : string) (s : string) : option string :=
  if String.prefix " PER SHARE" s then Some (String.rev acc) else None.

(** The whole pattern, anchored at the start of [s]. *)
Definition matchHere (s : string) : option string :=
  digitsPlus EmptyString s (fun acc r => fractionOpt acc r lookahead).

(** [s.match(re)]: the leftmost match, or [None] for [null].  Only element
    0 of the match array, the matched text, is used by the converter. *)
Fixpoint exec (s : string) : option string :=
  match matchHere s with
  | Some m => Some m
  | None =>
      match s with
      | EmptyString => None
      | String _ s' => exec s'
      end
  end.

(** The words of the specification: a decimal number is a run of digits,
    or two runs of digits around a dot, and a description has a per-share
    price when a decimal number in it is immediately followed by the text
    [" PER SHARE"]. *)
Fixpoint allDigits (s : string) : bool :=
  match s with
  | EmptyString => true
  | String c s' => isDigit c && allDigits s'
  end.

Definition digitRun (s : string) : bool := Js.truthy s && allDigits s.

Definition decimalNumber (n : string) : Prop :=
  ∃ whole, digitRun whole = true ∧
    (n = whole ∨ ∃ frac, digitRun frac = true ∧ n = whole +:+ "." +:+ frac).

Definition hasPrice (s : string) : Prop :=
  ∃ before n after,
    decimalNumber n ∧ s = before +:+ n +:+ " PER SHARE" +:+ after.

End PerShare.

(** ** The environment of the converter *)

(** What the JavaScript runtime, [dayjs] and the process environment
    provide, over the type [num] of the numbers.  [newDate] is the time
    value of [new Date()], in milliseconds; [dayjsParsedFormat d] is
    [dayjs(d, "YYYYMMDD").format("YYYY-MM-DDTHH:mm:ssZ")], the date written
    into an activity; [dayjsFormat d] is
    [dayjs(d).format("YYYY-MM-DDTHH:mm:ssZ")], the date the matcher
    compares with. *)
Class Runtime (num : Type) := {
  zero : num;
  Math_abs : num -> num;
  parseFloat : string -> num;
  divide : num -> num -> num;
  toFixed : nat -> num -> string;
  toLocaleLowerCase : string -> string;
  dayjsParsedFormat : string -> string;
  dayjsFormat : string -> string;
  newDate : Z;
  GHOSTFOLIO_ACCOUNT_ID : option string
}.

(** Modelled from the spec: [models/yahooFinanceRecord] is not among the
    sources; a resolved security carries a symbol, a currency and a
    display name. *)
Record YahooFinanceRecord := {
  sec_symbol : string;
  sec_currency : string;
  sec_name : string
}.

(** The arguments of one call of [securityService.getSecurity]: isin,
    symbol, name and currency, [None] standing for [null] or [undefined]
    (the progress bar, the fifth argument, is left out). *)
Record Query := {
  q_isin : option string;
  q_symbol : option string;
  q_name : option string;
  q_currency : option string
}.

(** The external lookup: it answers a query with a security, with an
    empty result, or by raising an error.  It is a function of the query:
    the same query gets the same answer throughout a run. *)
Inductive LookupResult (E : Type) :=
  | Found (security : YahooFinanceRecord)
  | NoResult
  | Raised (e : E).
Arguments Found {E} security.
Arguments NoResult {E}.
Arguments Raised {E} e.

Class SecurityService (lookupError : Type) := {
  getSecurity : Query -> LookupResult lookupError
}.

(** ** The data model *)

(** [DataSource] of [models/ghostfolioActivity]. *)
Inductive DataSource := YAHOO | MANUAL | COINGECKO | POLYGON | RAPID_API.

(** Modelled from the spec: [models/ghostfolioOrderType] is not among the
    sources; the members are the order types the converter names. *)
Inductive GhostfolioOrderType := buy | sell | dividend.

(** Modelled from the spec: [GhostfolioOrderType[key]], the member named
    [key], [undefined] when there is none. *)
Definition orderTypeOfKey (key : string) : option GhostfolioOrderType :=
  if decide (key = "buy") then Some buy
  else if decide (key = "sell") then Some sell
  else if decide (key = "dividend") then Some dividend
  else None.

(** ** The override table *)

(** The two private fields of [IbkrConverter]. *)
Record IbkrConverter := {
  isinOverrides : gmap string string;
  manualIsins : gset string
}.

Definition noOverrides : IbkrConverter :=
  {| isinOverrides := ∅; manualIsins := ∅ |}.

(** The body of the loop of [loadIsinOverrides], for one line. *)
Definition loadLine (this : IbkrConverter) (line : string) : IbkrConverter :=
  let trimmed := Js.trim line in
  if negb (Js.truthy trimmed) || Js.startsWith "#" trimmed then this
  else
    match Js.split "=" trimmed with
    | [part0; part1] =>
        let isin := Js.trim part0 in
        let sym := Js.trim part1 in
        if negb (Js.truthy isin) || negb (Js.truthy sym) then this
        else if decide (isin = sym) then
          {| isinOverrides := isinOverrides this;
             manualIsins := {[ isin ]} ∪ manualIsins this |}
        else
          {| isinOverrides := <[ isin := sym ]> (isinOverrides this);
             manualIsins := manualIsins this |}
    | _ => this
    end.

(** [loadIsinOverrides], run by the constructor; [file] is the content of
    [isin-overrides.txt], [None] when the file does not exist. *)
Definition loadIsinOverrides (file : option string) : IbkrConverter :=
  match file with
  | None => noOverrides
  | Some content =>
      foldl loadLine noOverrides (Js.split Js.LF content)
  end.

Definition isManualIsin (this : IbkrConverter) (isin : string) : bool :=
  bool_decide (isin ∈ manualIsins this).

Definition getSymbolOverride (this : IbkrConverter) (isin : string) : option string :=
  isinOverrides this !! isin.

(** ** Reading the override file, line by line *)

(** The pair that a line of the override file contributes, [None] for a
    line that the loader skips. *)
Definition overrideEntry (line : string) : option (string * string) :=
  let trimmed := Js.trim line in
  if negb (Js.truthy trimmed) || Js.startsWith "#" trimmed then None
  else
    match Js.split "=" trimmed with
    | [part0; part1] =>
        if negb (Js.truthy (Js.trim part0)) || negb (Js.truthy (Js.trim part1))
        then None
        else Some (Js.trim part0, Js.trim part1)
    | _ => None
    end.

(** The valid lines of the override file, in file order. *)
Definition overrideEntries (content : string) : list (string * string) :=
  omap overrideEntry (Js.split Js.LF content).

(** What the loader does with a valid line. *)
Definition applyEntry (this : IbkrConverter) (entry : string * string) : IbkrConverter :=
  if decide (entry.1 = entry.2) then
    {| isinOverrides := isinOverrides this;
       manualIsins := {[ entry.1 ]} ∪ manualIsins this |}
  else
    {| isinOverrides := <[ entry.1 := entry.2 ]> (isinOverrides this);
       manualIsins := manualIsins this |}.

(** The replacement key of the last line [isin=key] with [key] other than
    [isin]. *)
Fixpoint lastReplacement (isin : string) (entries : list (string * string))
    : option string :=
  match entries with
  | [] => None
  | entry :: rest =>
      match lastReplacement isin rest with
      | Some key => Some key
      | None =>
          if decide (entry.1 = isin ∧ entry.2 ≠ isin) then Some entry.2 else None
      end
  end.

Section Model.

Context {num lookupError : Type} {rt : Runtime num} {svc : SecurityService lookupError}.

(** A record of the six column dividend layout, after the cast. *)
Record IbkrDividendRecord := {
  div_type : string;
  div_date : string;
  div_isin : string;
  div_description : string;
  div_amount : num;
  div_currency : string
}.

(** A record of the nine column trade layout, after the cast. *)
Record IbkrTradeRecord := {
  trd_type : string;
  trd_date : string;
  trd_isin : string;
  trd_quantity : num;
  trd_price : num;
  trd_totalAmount : num;
  trd_tradeCurrency : string;
  trd_commission : num;
  trd_commissionCurrency : string
}.

(** The parser builds every record of a file with the columns that
    [processHeaders] names, so a record has one of the two shapes. *)
Inductive IbkrRecord :=
  | DividendRow (r : IbkrDividendRecord)
  | TradeRow (r : IbkrTradeRecord).

Definition rec_type (r : IbkrRecord) : string :=
  match r with DividendRow d => div_type d | TradeRow t => trd_type t end.
Definition rec_date (r : IbkrRecord) : string :=
  match r with DividendRow d => div_date d | TradeRow t => trd_date t end.
Definition rec_isin (r : IbkrRecord) : string :=
  match r with DividendRow d => div_isin d | TradeRow t => trd_isin t end.

(** [(record as IbkrDividendRecord).currency]: [undefined] on a trade. *)
Definition rec_currency (r : IbkrRecord) : option string :=
  match r with DividendRow d => Some (div_currency d) | TradeRow _ => None end.
(** [(record as IbkrTradeRecord).tradeCurrency]: [undefined] on a dividend. *)
Definition rec_tradeCurrency (r : IbkrRecord) : option string :=
  match r with DividendRow _ => None | TradeRow t => Some (trd_tradeCurrency t) end.

(** [GhostfolioActivity].  A field that the converter can fill with
    [undefined] is an [option]. *)
Record GhostfolioActivity := {
  accountId : option string;
  comment : string;
  fee : option num;
  quantity : option num;
  type : option GhostfolioOrderType;
  unitPrice : option num;
  currency : option string;
  dataSource : DataSource;
  date : string;
  symbol : string
}.

Record GhostfolioExport := {
  meta_date : Z;
  meta_version : string;
  activities : list GhostfolioActivity
}.

(** *** The cast of the parser options *)

(** The value a column is cast to: a string or a number. *)
Inductive CastValue :=
  | CastString (s : string)
  | CastNumber (n : num).

Definition isNumberColumn (column : string) : bool :=
  bool_decide (column = "amount") || bool_decide (column = "quantity") ||
  bool_decide (column = "price") || bool_decide (column = "totalAmount") ||
  bool_decide (column = "commission").

Definition castNumberOrKeep (column columnValue : string) : CastValue :=
  if isNumberColumn column
  then CastNumber (Math_abs (parseFloat columnValue))
  else CastString columnValue.

Definition cast (column columnValue : string) : CastValue :=
  if decide (column = "type") then
    let action := toLocaleLowerCase columnValue in
    if Js.includes "buy" action then CastString "buy"
    else if Js.includes "sell" action then CastString "sell"
    else if Js.includes "dividend" action then CastString "dividend"
    else if Js.includes "tax" action then CastString "dividendTax"
    else castNumberOrKeep column columnValue
  else castNumberOrKeep column columnValue.

(** The field of a record under a given column.  [cast] yields a string
    for the text columns and a number for the five number columns, which
    are the only ways the two projections are used below; the second
    branch of each is never taken there. *)
Definition castToString (column columnValue : string) : string :=
  match cast column columnValue with
  | CastString s => s
  | CastNumber _ => columnValue
  end.

Definition castToNumber (column columnValue : string) : num :=
  match cast column columnValue with
  | CastNumber n => n
  | CastString s => parseFloat s
  end.

(** The record the parser builds from a line of six fields under the
    dividend layout. *)
Definition dividendOfFields (ty dt isin desc amt cur : string) : IbkrDividendRecord :=
  {| div_type := castToString "type" ty;
     div_date := castToString "date" dt;
     div_isin := castToString "isin" isin;
     div_description := castToString "description" desc;
     div_amount := castToNumber "amount" amt;
     div_currency := castToString "currency" cur |}.

Definition dividendRecordOfFields (ty dt isin desc amt cur : string) : IbkrRecord :=
  DividendRow (dividendOfFields ty dt isin desc amt cur).

(** The record the parser builds from a line of nine fields under the
    trade layout. *)
Definition tradeRecordOfFields
    (ty dt isin qty prc tot cur com comCur : string) : IbkrRecord :=
  TradeRow {|
    trd_type := castToString "type" ty;
    trd_date := castToString "date" dt;
    trd_isin := castToString "isin" isin;
    trd_quantity := castToNumber "quantity" qty;
    trd_price := castToNumber "price" prc;
    trd_totalAmount := castToNumber "totalAmount" tot;
    trd_tradeCurrency := castToString "tradeCurrency" cur;
    trd_commission := castToNumber "commission" com;
    trd_commissionCurrency := castToString "commissionCurrency" comCur |}.

(** *** [processHeaders] *)

Definition tradeColumns : list string :=
  ["type"; "date"; "isin"; "quantity"; "price"; "totalAmount";
   "tradeCurrency"; "commission"; "commissionCurrency"].

Definition dividendColumns : list string :=
  ["type"; "date"; "isin"; "description"; "amount"; "currency"].

(** [input.split('\n')[0]]; [split] never returns an empty array when
    the separator is not empty. *)
Definition firstLine (input : string) : string :=
  match Js.split Js.LF input with
  | l :: _ => l
  | [] => EmptyString
  end.

Definition processHeaders (input : string) (splitChar : string) : list string :=
  let colsInFile := Js.split splitChar (firstLine input) in
  if 6 <? length colsInFile then tradeColumns else dividendColumns.

(** *** [isIgnoredRecord] *)

Definition isIgnoredRecord (record : IbkrRecord) : bool :=
  negb (Js.truthy (rec_isin record)).

(** *** Identity resolution (the inner [try] of the loop) *)

(** The currency of a record: the [currency] field when it is truthy,
    the [tradeCurrency] field otherwise, and ["GBp"] for ["GBX"]. *)
Definition recordCurrency (record : IbkrRecord) : option string :=
  let currency :=
    match rec_currency record with
    | Some c => if Js.truthy c then Some c else rec_tradeCurrency record
    | None => rec_tradeCurrency record
    end in
  if decide (currency = Some "GBX") then Some "GBp" else currency.

(** [currency || 'USD']. *)
Definition currencyOrUSD (currency : option string) : string :=
  match currency with
  | Some c => if Js.truthy c then c else "USD"
  | None => "USD"
  end.

Definition manualSecurity (isin : string) (currency : option string)
    : YahooFinanceRecord :=
  {| sec_symbol := "GF_" +:+ isin;
     sec_currency := currencyOrUSD currency;
     sec_name := isin |}.

Definition overrideQuery (symbolOverride : string) (currency : option string) : Query :=
  {| q_isin := None; q_symbol := Some symbolOverride; q_name := None;
     q_currency := currency |}.

Definition isinQuery (isin : string) (currency : option string) : Query :=
  {| q_isin := Some isin; q_symbol := None; q_name := None;
     q_currency := currency |}.

(** What the inner [try] leaves behind: the security (or an empty
    result) with its data source, or the error that was caught. *)
Inductive Resolution :=
  | Resolved (security : option YahooFinanceRecord) (source : DataSource)
  | Failed (e : lookupError).

Definition awaitSecurity (q : Query) : Resolution :=
  match getSecurity q with
  | Found security => Resolved (Some security) YAHOO
  | NoResult => Resolved None YAHOO
  | Raised e => Failed e
  end.

(** The resolution of one record, with the queries sent to the external
    lookup on the way. *)
Definition resolveSecurity (this : IbkrConverter) (isin : string)
    (currency : option string) : Resolution * list Query :=
  if isManualIsin this isin then
    (Resolved (Some (manualSecurity isin currency)) MANUAL, [])
  else
    match getSymbolOverride this isin with
    | Some symbolOverride =>
        if Js.truthy symbolOverride
        then (awaitSecurity (overrideQuery symbolOverride currency),
              [overrideQuery symbolOverride currency])
        else (awaitSecurity (isinQuery isin currency), [isinQuery isin currency])
    | None => (awaitSecurity (isinQuery isin currency), [isinQuery isin currency])
    end.

(** *** [findExactDividendMatch] *)

Definition exactDividendMatch (dividendRecord : IbkrDividendRecord)
    (sym : string) (a : GhostfolioActivity) : Prop :=
  symbol a = sym ∧
  currency a = Some (div_currency dividendRecord) ∧
  Js.substring0 20 (comment a) = Js.substring0 20 (div_description dividendRecord) ∧
  date a = dayjsFormat (div_date dividendRecord).

#[global] Instance exactDividendMatch_dec d sym a :
  Decision (exactDividendMatch d sym a).
Proof. unfold exactDividendMatch. apply _. Defined.

(** [activities.find(...)]: the first matching activity with its index,
    the index standing for the reference that the caller writes through. *)
Definition findExactDividendMatch (dividendRecord : IbkrDividendRecord)
    (sym : string) (acts : list GhostfolioActivity)
    : option (nat * GhostfolioActivity) :=
  list_find (exactDividendMatch dividendRecord sym) acts.

(** *** The loop of [processFileContents] *)

(** The three assignments to a tax record that a dividend completes. *)
Definition overwriteTaxRecord (c : string) (price qty : num)
    (existing : GhostfolioActivity) : GhostfolioActivity :=
  {| accountId := accountId existing;
     comment := c;
     fee := fee existing;
     quantity := Some qty;
     type := type existing;
     unitPrice := Some price;
     currency := currency existing;
     dataSource := dataSource existing;
     date := date existing;
     symbol := symbol existing |}.

(** The assignment to a dividend record that receives its tax. *)
Definition addTaxInfo (fees : num) (existing : GhostfolioActivity)
    : GhostfolioActivity :=
  {| accountId := accountId existing;
     comment := comment existing;
     fee := Some fees;
     quantity := quantity existing;
     type := type existing;
     unitPrice := unitPrice existing;
     currency := currency existing;
     dataSource := dataSource existing;
     date := date existing;
     symbol := symbol existing |}.

(** The errors that reach the error callback. *)
Inductive Failure :=
  | ParsingError (message : string)
  | LookupFailure (e : lookupError)
  | NullMatchTypeError.

(** The state of the loop: the activities built so far and the queries
    sent to the external lookup so far. *)
Record Progress := {
  built : list GhostfolioActivity;
  asked : list Query
}.

(** One iteration either goes on to the next record or leaves the loop
    with an error. *)
Inductive Step :=
  | Next (st : Progress)
  | Abort (error : Failure) (st : Progress).

(** The dividend view of a record, taken when its [currency] is truthy. *)
Definition asDividendRecord (record : IbkrRecord) : option IbkrDividendRecord :=
  match record with
  | DividendRow d => if Js.truthy (div_currency d) then Some d else None
  | TradeRow _ => None
  end.

(** The trade view of a record; on a dividend record the three fields
    are [undefined]. *)
Definition tradeCommission (record : IbkrRecord) : option num :=
  match record with TradeRow t => Some (trd_commission t) | DividendRow _ => None end.
Definition tradeQuantity (record : IbkrRecord) : option num :=
  match record with TradeRow t => Some (trd_quantity t) | DividendRow _ => None end.
Definition tradePrice (record : IbkrRecord) : option num :=
  match record with TradeRow t => Some (trd_price t) | DividendRow _ => None end.

(** [result.activities.push({...})]. *)
Definition pushActivity (st : Progress) (a : GhostfolioActivity) : Step :=
  Next {| built := built st ++ [a]; asked := asked st |}.

Definition newActivity (c : string) (fees qty : option num)
    (ty : option GhostfolioOrderType) (price : option num)
    (cur : option string) (source : DataSource) (dt sym : string)
    : GhostfolioActivity :=
  {| accountId := GHOSTFOLIO_ACCOUNT_ID;
     comment := c;
     fee := fees;
     quantity := qty;
     type := ty;
     unitPrice := price;
     currency := cur;
     dataSource := source;
     date := dt;
     symbol := sym |}.

(** The part of an iteration after the security was found. *)
Definition classifyRecord (st : Progress) (record : IbkrRecord)
    (cur : option string) (security : YahooFinanceRecord)
    (source : DataSource) : Step :=
  let dt := dayjsParsedFormat (rec_date record) in
  match asDividendRecord record with
  | Some dividendRecord =>
      let description := div_description dividendRecord in
      if Js.includes "in lieu of" (toLocaleLowerCase description) then
        pushActivity st
          (newActivity description (Some zero) (Some (div_amount dividendRecord))
             (Some dividend) (Some zero) cur source dt (sec_symbol security))
      else
        match PerShare.exec description with
        | None => Abort NullMatchTypeError st
        | Some matched =>
            let price := parseFloat matched in
            let isTax := bool_decide (div_type dividendRecord = "dividendTax") in
            let fees := if isTax then Math_abs (div_amount dividendRecord) else zero in
            let qty :=
              if isTax then zero
              else parseFloat (toFixed 3 (divide (div_amount dividendRecord) price)) in
            match findExactDividendMatch dividendRecord (sec_symbol security) (built st) with
            | Some (i, existingDividendRecord) =>
                if Js.includes "TAX" (comment existingDividendRecord)
                then Next {| built := alter (overwriteTaxRecord description price qty) i (built st);
                             asked := asked st |}
                else Next {| built := alter (addTaxInfo fees) i (built st);
                             asked := asked st |}
            | None =>
                pushActivity st
                  (newActivity description (Some fees) (Some qty) (Some dividend)
                     (Some price) cur source dt (sec_symbol security))
            end
        end
  | None =>
      pushActivity st
        (newActivity "" (tradeCommission record) (tradeQuantity record)
           (orderTypeOfKey (rec_type record)) (tradePrice record)
           cur source dt (sec_symbol security))
  end.

(** One iteration of the loop.  The progress bar and the log lines, which
    change nothing of the result, are left out. *)
Definition processRecord (this : IbkrConverter) (st : Progress)
    (record : IbkrRecord) : Step :=
  if isIgnoredRecord record then Next st
  else
    let cur := recordCurrency record in
    let '(resolution, sent) := resolveSecurity this (rec_isin record) cur in
    let st' := {| built := built st; asked := asked st ++ sent |} in
    match resolution with
    | Failed e => Abort (LookupFailure e) st'
    | Resolved None _ => Next st'
    | Resolved (Some security) source => classifyRecord st' record cur security source
    end.

(** The loop: the records in file order, left at the first error. *)
Fixpoint processRecords (this : IbkrConverter) (st : Progress)
    (records : list IbkrRecord) : Step :=
  match records with
  | [] => Next st
  | record :: rest =>
      match processRecord this st record with
      | Next st' => processRecords this st' rest
      | Abort error st' => Abort error st'
      end
  end.

(** *** [processFileContents] *)

Inductive Callback :=
  | successCallback (result : GhostfolioExport)
  | errorCallback (error : Failure).

(** What a run leaves behind: the callbacks invoked, in order, and the
    queries sent to the external lookup, in order. *)
Record Run := {
  callbacks : list Callback;
  queries : list Query
}.

Definition parsingError (err : option string) : Failure :=
  ParsingError
    ("An error occurred while parsing!" +:+
     match err with
     | Some message => " Details: " +:+ message
     | None => ""
     end).

Definition initial : Progress := {| built := []; asked := [] |}.

(** The callback that [processFileContents] hands to the parser, applied
    to what the parser reports: an error (its message) or the records.
    The two callbacks of the caller are taken to return normally. *)
Definition processFileContents (this : IbkrConverter)
    (err : option string) (records : option (list IbkrRecord)) : Run :=
  match err, records with
  | None, Some ((_ :: _) as rows) =>
      match processRecords this initial rows with
      | Next st =>
          {| callbacks := [successCallback
               {| meta_date := newDate; meta_version := "v0"; activities := built st |}];
             queries := asked st |}
      | Abort error st =>
          {| callbacks := [errorCallback error]; queries := asked st |}
      end
  | _, _ => {| callbacks := [errorCallback (parsingError err)]; queries := [] |}
  end.

(** *** Vocabulary of the specification *)

(** The state that a step leaves behind. *)
Definition stateOf (s : Step) : Progress :=
  match s with
  | Next st => st
  | Abort _ st => st
  end.

(** The resolution that the override line [isin=value] alone asks for: a
    manual security when [value] is [isin], the external lookup with
    [value] as the replacement key otherwise. *)
Definition resolveByLine (isin value : string) (cur : option string)
    : Resolution * list Query :=
  if decide (value = isin)
  then (Resolved (Some (manualSecurity isin cur)) MANUAL, [])
  else (awaitSecurity (overrideQuery value cur), [overrideQuery value cur]).

(** Last write wins, as the specification words it: when an earlier and a
    later valid line of the override file name an identifier, and no line
    after the later one does, the resolution of the identifier follows the
    later line, whatever the earlier lines say. *)
Definition lastWriteWins (content : string) : Prop :=
  ∀ earlier later isin value cur,
    overrideEntries content = earlier ++ (isin, value) :: later →
    (∃ v, (isin, v) ∈ earlier) →
    (∀ v, (isin, v) ∉ later) →
    resolveSecurity (loadIsinOverrides (Some content)) isin cur =
    resolveByLine isin value cur.


(** The activity that a dividend record with a per-share price adds to
    the list when the matcher finds no counterpart for it. *)
Definition unmergedActivity (d : IbkrDividendRecord) (matched : string)
    (security : YahooFinanceRecord) (source : DataSource) : GhostfolioActivity :=
  let price := parseFloat matched in
  let isTax := bool_decide (div_type d = "dividendTax") in
  {| accountId := GHOSTFOLIO_ACCOUNT_ID;
     comment := div_description d;
     fee := Some (if isTax then Math_abs (div_amount d) else zero);
     quantity := Some (if isTax then zero
                       else parseFloat (toFixed 3 (divide (div_amount d) price)));
     type := Some dividend;
     unitPrice := Some price;
     currency := recordCurrency (DividendRow d);
     dataSource := source;
     date := dayjsParsedFormat (div_date d);
     symbol := sec_symbol security |}.

(** No activity carries the raw currency code ["GBX"]. *)
Definition noRawGBX (acts : list GhostfolioActivity) : Prop :=
  Forall (λ a, currency a ≠ Some "GBX") acts.

End Model.

(** ** Further vocabulary *)

Module Text.

(** Every code unit of [s] is white space. *)
Fixpoint allWhiteSpace (s : string) : bool :=
  match s with
  | EmptyString => true
  | String c s' => Js.isWhiteSpace c && allWhiteSpace s'
  end.

(** [s] is not empty and [trim] leaves it as it is. *)
Definition trimmed (s : string) : Prop := Js.truthy s = true ∧ Js.trim s = s.

(** The text of an override line: an identifier and a value around one
    [=], with white space around each of the three. *)
Definition overrideLine (w1 isin w2 w3 value w4 : string) : string :=
  w1 +:+ isin +:+ w2 +:+ "=" +:+ w3 +:+ value +:+ w4.

End Text.

Section LoopVocabulary.

Context {num lookupError : Type} {rt : Runtime num} {svc : SecurityService lookupError}.

(** What a step shows to the caller: the error, if any, and the
    activities. *)
Definition outcome (s : @Step num lookupError)
    : option (@Failure lookupError) * list (@GhostfolioActivity num) :=
  match s with
  | Next st => (None, built st)
  | Abort error st => (Some error, built st)
  end.

(** The fields of an activity that say which event it stands for. *)
Definition identity (a : @GhostfolioActivity num)
    : option string * option GhostfolioOrderType * option string *
      DataSource * string * string :=
  (accountId a, type a, currency a, dataSource a, date a, symbol a).

(** The records that the loop does not ignore. *)
Definition notIgnored (records : list (@IbkrRecord num)) : list (@IbkrRecord num) :=
  filter (λ r, isIgnoredRecord r = false) records.

(** The external lookup answers the query without raising. *)
Definition answered (q : Query) : Prop := ∀ e, getSecurity q ≠ Raised e.


(** The activity carries what the loop derives from the record: its
    currency, its date, the account of the environment, and the source
    and symbol of its resolution (a manual identifier gives the symbol
    [GF_<isin>] and the source MANUAL, any other the source YAHOO). *)
Definition madeFrom (this : IbkrConverter) (r : @IbkrRecord num)
    (a : @GhostfolioActivity num) : Prop :=
  isIgnoredRecord r = false ∧
  accountId a = GHOSTFOLIO_ACCOUNT_ID ∧
  currency a = recordCurrency r ∧
  date a = dayjsParsedFormat (rec_date r) ∧
  (if isManualIsin this (rec_isin r)
   then dataSource a = MANUAL ∧ symbol a = "GF_" +:+ rec_isin r
   else dataSource a = YAHOO).

(** The activity of a record that the loop does not take for a
    dividend (a trade, or a record of the dividend layout with an empty
    currency): none when the record is ignored or not resolved. *)
Definition plainActivity (this : IbkrConverter) (r : @IbkrRecord num)
    : option (@GhostfolioActivity num) :=
  if isIgnoredRecord r then None
  else
    match (resolveSecurity (lookupError := lookupError)
             this (rec_isin r) (recordCurrency r)).1 with
    | Resolved (Some security) source =>
        Some (newActivity "" (tradeCommission r) (tradeQuantity r)
                (orderTypeOfKey (rec_type r)) (tradePrice r)
                (recordCurrency r) source (dayjsParsedFormat (rec_date r))
                (sec_symbol security))
    | _ => None
    end.

End LoopVocabulary.

(** ** A concrete environment

    An instance of [Runtime] with exact decimal arithmetic in place of
    binary floating point, a process in the UTC time zone, and a small
    security service.  The properties below are proved for every
    environment; this one runs the model on concrete rows. *)

Module Exact.

(** A number: [NaN], an infinity, or a rational in lowest terms. *)
Inductive xnum :=
  | NaN
  | Infinity (negative : bool)
  | Finite (q : Q).

Definition finite (q : Q) : xnum := Finite (Qred q).

Definition isNegative (q : Q) : bool := (Qnum q <? 0)%Z.

Definition abs (x : xnum) : xnum :=
  match x with
  | NaN => NaN
  | Infinity _ => Infinity false
  | Finite q => finite (Qabs q)
  end.

Definition div (x y : xnum) : xnum :=
  match x, y with
  | Finite a, Finite b =>
      if Qeq_bool b 0
      then (if Qeq_bool a 0 then NaN else Infinity (isNegative a))
      else finite (a / b)
  | Finite _, Infinity _ => finite 0
  | Infinity n, Finite b => Infinity (xorb n (isNegative b))
  | _, _ => NaN
  end.

Definition digitValue (c : ascii) : Z := Z.of_nat (nat_of_ascii c) - 48.

(** The digits at the start of [s]: their value after [acc], how many
    there are, and what follows them. *)
Fixpoint readDigits (acc : Z) (count : nat) (s : string) : Z * nat * string :=
  match s with
  | String c s' =>
      if PerShare.isDigit c
      then readDigits (10 * acc + digitValue c) (S count) s'
      else (acc, count, s)
  | EmptyString => (acc, count, s)
  end.

Definition pow10 (n : nat) : positive := Nat.iter n (Pos.mul 10) 1%positive.

(** An unsigned decimal literal at the start of [s], without exponent. *)
Definition readUnsigned (s : string) : xnum :=
  if String.prefix "Infinity" s then Infinity false
  else
    let '(whole, n1, rest) := readDigits 0 0 s in
    let '(mantissa, n2) :=
      match rest with
      | String "."%char rest' =>
          let '(m, n, _) := readDigits whole 0 rest' in (m, n)
      | _ => (whole, 0)
      end in
    if (n1 + n2 =? 0)%nat then NaN
    else finite (Qmake mantissa (pow10 n2)).

Definition negate (x : xnum) : xnum :=
  match x with
  | NaN => NaN
  | Infinity n => Infinity (negb n)
  | Finite q => finite (- q)
  end.

(** [parseFloat] on literals without exponent. *)
Definition parse (s : string) : xnum :=
  match Js.trimStart s with
  | String "-"%char s' => negate (readUnsigned s')
  | String "+"%char s' => readUnsigned s'
  | s' => readUnsigned s'
  end.

Fixpoint zeros (n : nat) : string :=
  match n with
  | O => EmptyString
  | S n' => String "0"%char (zeros n')
  end.

(** [x.toFixed(digits)]: the nearest multiple of [10^-digits], the
    larger one on a tie. *)
Definition fixed (digits : nat) (x : xnum) : string :=
  match x with
  | NaN => "NaN"
  | Infinity n => if n then "-Infinity" else "Infinity"
  | Finite q =>
      let a := Z.abs (Qnum q) in
      let b := Z.pos (Qden q) in
      let scale := (10 ^ Z.of_nat digits)%Z in
      let n := ((2 * a * scale + b) / (2 * b))%Z in
      let whole := pretty (Z.to_N (n / scale)) in
      let frac := pretty (Z.to_N (n mod scale)) in
      let sign := if isNegative q then "-" else "" in
      match digits with
      | O => sign +:+ whole
      | S _ => sign +:+ whole +:+ "." +:+
               zeros (digits - String.length frac) +:+ frac
      end
  end.

Definition lowerChar (c : ascii) : ascii :=
  let n := nat_of_ascii c in
  if (65 <=? n) && (n <=? 90) then ascii_of_nat (n + 32) else c.

(** [toLocaleLowerCase] on the letters A to Z. *)
Fixpoint lower (s : string) : string :=
  match s with
  | EmptyString => EmptyString
  | String c s' => String (lowerChar c) (lower s')
  end.

Definition daysInMonth (year month : Z) : Z :=
  if (month =? 2)%Z then
    if ((year mod 4 =? 0) && negb (year mod 100 =? 0) || (year mod 400 =? 0))%Z
    then 29%Z else 28%Z
  else if ((month =? 4) || (month =? 6) || (month =? 9) || (month =? 11))%Z
  then 30%Z else 31%Z.

(** A calendar date written [YYYYMMDD], formatted in the UTC time zone;
    every other text is reported as an invalid date. *)
Definition isoDate (d : string) : string :=
  let year := String.substring 0 4 d in
  let month := String.substring 4 2 d in
  let day := String.substring 6 2 d in
  let value s := fst (fst (readDigits 0 0 s)) in
  if (String.length d =? 8)%nat && PerShare.allDigits d &&
     (1 <=? value month)%Z && (value month <=? 12)%Z &&
     (1 <=? value day)%Z && (value day <=? daysInMonth (value year) (value month))%Z
  then year +:+ "-" +:+ month +:+ "-" +:+ day +:+ "T00:00:00+00:00"
  else "Invalid Date".

#[local] Instance runtime : Runtime xnum := {|
  zero := Finite 0;
  Math_abs := abs;
  parseFloat := parse;
  divide := div;
  toFixed := fixed;
  toLocaleLowerCase := lower;
  dayjsParsedFormat := isoDate;
  dayjsFormat := isoDate;
  newDate := 1672531200000%Z;
  GHOSTFOLIO_ACCOUNT_ID := Some "my-account"
|}.

Definition apple : YahooFinanceRecord :=
  {| sec_symbol := "AAPL"; sec_currency := "USD"; sec_name := "Apple Inc." |}.

Definition vodafone : YahooFinanceRecord :=
  {| sec_symbol := "VOD.L"; sec_currency := "GBp"; sec_name := "Vodafone Group" |}.

(** A service that knows two securities, by identifier and by symbol,
    fails on one identifier and finds nothing for the rest. *)
Definition lookup (q : Query) : LookupResult string :=
  if decide (q_isin q = Some "US0378331005" ∨ q_symbol q = Some "AAPL")
  then Found apple
  else if decide (q_isin q = Some "GB00BH4HKS39" ∨ q_symbol q = Some "VOD.L")
  then Found vodafone
  else if decide (q_isin q = Some "XX0000000000")
  then Raised "service unavailable"
  else NoResult.

#[local] Instance service : SecurityService string := {|
  getSecurity := lookup
|}.

End Exact.

(** ** Sample rows, as the parser builds them in the concrete environment *)

Module Samples.

#[local] Existing Instance Exact.runtime.
#[local] Existing Instance Exact.service.

Definition appleIsin : string := "US0378331005".
Definition vodafoneIsin : string := "GB00BH4HKS39".

(** A dividend of Apple and its withholding tax, as the broker words them. *)
Definition appleDividend : IbkrDividendRecord :=
  dividendOfFields "Dividends" "20230105" appleIsin
    "AAPL(US0378331005) CASH DIVIDEND USD 0.24 PER SHARE (Ordinary Dividend)"
    "2.40" "USD".

Definition appleTax : IbkrDividendRecord :=
  dividendOfFields "Withholding Tax" "20230105" appleIsin
    "AAPL(US0378331005) CASH DIVIDEND USD 0.24 PER SHARE - US TAX"
    "-0.36" "USD".

(** The dividend and the tax of the scenarios of the specification, whose
    descriptions are the per-share price alone. *)
Definition plainDividend : IbkrDividendRecord :=
  dividendOfFields "DIVIDEND" "20230105" appleIsin "0.24 PER SHARE" "2.40" "USD".

Definition plainTax : IbkrDividendRecord :=
  dividendOfFields "TAX" "20230105" appleIsin "0.24 PER SHARE" "0.36" "USD".

(** A payment in lieu of the same dividend. *)
Definition applePaymentInLieu : IbkrDividendRecord :=
  dividendOfFields "Payment In Lieu Of Dividends" "20230105" appleIsin
    "AAPL(US0378331005) CASH DIVIDEND USD 0.24 PER SHARE (Payment in Lieu of Dividend)"
    "2.40" "USD".

(** A dividend whose description carries no per-share price. *)
Definition unpricedDividend : IbkrDividendRecord :=
  dividendOfFields "Dividends" "20230105" appleIsin
    "AAPL(US0378331005) STOCK DIVIDEND 1 FOR 10" "2.40" "USD".

(** A dividend of Vodafone and its tax, in pence. *)
Definition vodafoneDividend : IbkrDividendRecord :=
  dividendOfFields "Dividends" "20230203" vodafoneIsin
    "VOD(GB00BH4HKS39) CASH DIVIDEND GBP 0.0386 PER SHARE (Ordinary Dividend)"
    "38.60" "GBX".

Definition vodafoneTax : IbkrDividendRecord :=
  dividendOfFields "Withholding Tax" "20230203" vodafoneIsin
    "VOD(GB00BH4HKS39) CASH DIVIDEND GBP 0.0386 PER SHARE - GB TAX"
    "-3.86" "GBX".

(** A purchase of Apple shares, and a purchase on which the service fails. *)
Definition appleBuy : IbkrRecord :=
  tradeRecordOfFields "BUY" "20230105" appleIsin "10" "150.00" "1500.00" "USD" "1.00" "USD".


(** The query for Apple by identifier, and the query by symbol. *)
Definition appleQuery : Query := isinQuery appleIsin (Some "USD").
Definition appleSymbolQuery : Query := overrideQuery "AAPL" (Some "USD").
Definition vodafoneQuery : Query := isinQuery vodafoneIsin (Some "GBp").

(** Override files: a replacement line overwritten by a later one, a
    manual line followed by a replacement line, and a manual line between
    two replacement lines. *)
Definition twoReplacements : string :=
  "US0378331005=APC.F" +:+ Js.LF +:+ "US0378331005=AAPL".

Definition manualThenReplacement : string :=
  "US0378331005=US0378331005" +:+ Js.LF +:+ "US0378331005=AAPL".

Definition manualAmongReplacements : string :=
  "# overrides" +:+ Js.LF +:+ "US0378331005=APC.F" +:+ Js.LF +:+
  " US0378331005 = US0378331005 " +:+ Js.LF +:+ "US0378331005=AAPL".

(** The state of the loop after the purchase of Apple shares. *)
Definition afterAppleBuy : Progress :=
  stateOf (processRecord noOverrides initial appleBuy).

(** The state of the loop after the Apple dividend. *)
Definition afterAppleDividend : Progress :=
  stateOf (processRecord noOverrides initial (DividendRow appleDividend)).

End Samples.

(** ** Further sample rows *)

Module Batches.

#[local] Existing Instance Exact.runtime.
#[local] Existing Instance Exact.service.

(** A purchase that the service knows nothing about, a row without
    identifier, a purchase in pence, and a row of the dividend layout
    whose currency is empty. *)
Definition unknownBuy : IbkrRecord :=
  tradeRecordOfFields "BUY" "20230107" "DE0000000000" "2" "10.00" "20.00" "EUR" "1.00" "EUR".

Definition blankRow : IbkrRecord :=
  tradeRecordOfFields "BUY" "20230108" "" "1" "1.00" "1.00" "USD" "0.00" "USD".

Definition vodafoneBuy : IbkrRecord :=
  tradeRecordOfFields "BUY" "20230203" Samples.vodafoneIsin
    "100" "95.00" "9500.00" "GBX" "3.00" "GBP".

Definition currencylessDividend : IbkrRecord :=
  dividendRecordOfFields "Dividends" "20230105" Samples.appleIsin
    "AAPL(US0378331005) CASH DIVIDEND USD 0.24 PER SHARE (Ordinary Dividend)"
    "2.40" "".

Definition unknownQuery : Query := isinQuery "DE0000000000" (Some "EUR").

(** An override file that marks Vodafone as manual. *)
Definition vodafoneByHand : string := "GB00BH4HKS39=GB00BH4HKS39".

(** A batch without dividends. *)
Definition plainBatch : list IbkrRecord :=
  [Samples.appleBuy; blankRow; unknownBuy; currencylessDividend; vodafoneBuy].

(** The activity of the purchase of Apple shares. *)
Definition boughtApple : GhostfolioActivity :=
  {| accountId := Some "my-account";
     comment := "";
     fee := Some (Exact.Finite 1);
     quantity := Some (Exact.Finite 10);
     type := Some buy;
     unitPrice := Some (Exact.Finite 150);
     currency := Some "USD";
     dataSource := YAHOO;
     date := "2023-01-05T00:00:00+00:00";
     symbol := "AAPL" |}.

End Batches.

(** Closes a goal about concrete rows by evaluation. *)
Ltac evaluated := vm_compute; first [reflexivity | discriminate | done].

(** * Properties *)

(** ** Strings *)

Lemma app_cons (c : ascii) (s t : string) : String c s +:+ t = String c (s +:+ t).
Proof. reflexivity. Qed.

Lemma app_nil_end (s : string) : s +:+ "" = s.
Proof. induction s as [|c s IH]; [done|]. by rewrite app_cons, IH. Qed.

Lemma app_assoc_string (s t u : string) : (s +:+ t) +:+ u = s +:+ (t +:+ u).
Proof.
  induction s as [|c s IH]; [done|]. rewrite !app_cons. by rewrite IH.
Qed.

Lemma prefix_split (p s : string) :
  String.prefix p s = true ↔ ∃ rest, s = p +:+ rest.
Proof.
  revert s. induction p as [|c p IH]; intros s.
  - split; [intros _; exists s; reflexivity|]. intros _. by destruct s.
  - destruct s as [|d s]; simpl; [split; [done|by intros [? ?]]|].
    destruct (ascii_dec c d) as [->|Hne].
    + rewrite IH. split; intros [rest Hrest]; exists rest.
      * by rewrite app_cons, Hrest.
      * rewrite app_cons in Hrest. by injection Hrest.
    + split; [done|]. intros [rest Hrest]. rewrite app_cons in Hrest.
      injection Hrest as ??. congruence.
Qed.

Lemma rev_app_rev_app (a b c : string) :
  String.rev_app (String.rev_app a b) c = String.rev_app b (a +:+ c).
Proof.
  revert b. induction a as [|x a IH]; intros b; [done|].
  simpl. rewrite IH. by rewrite app_cons.
Qed.

Lemma rev_rev_app (a b : string) :
  String.rev (String.rev_app a b) = String.rev b +:+ a.
Proof.
  unfold String.rev. rewrite rev_app_rev_app, app_nil_end.
  revert a. induction b as [|x b IH]; intros a; [done|].
  simpl. rewrite (IH (String x a)). rewrite (IH (String x "")).
  by rewrite app_assoc_string.
Qed.

(** ** The regular expression against the words of the specification *)

Module PerShareFacts.
Import PerShare.

Lemma digitsStar_sound {R} acc s (k : string → string → option R) r :
  digitsStar acc s k = Some r →
  ∃ ds rest, s = ds +:+ rest ∧ allDigits ds = true ∧
             k (String.rev_app ds acc) rest = Some r.
Proof.
  revert acc. induction s as [|c s IH]; intros acc; simpl.
  - intros Hk. by exists "", "".
  - destruct (isDigit c) eqn:Hc.
    + destruct (digitsStar (String c acc) s k) as [r'|] eqn:Hrec.
      * intros [= ->]. apply IH in Hrec as (ds & rest & -> & Hds & Hk).
        exists (String c ds), rest. simpl. by rewrite Hc, Hds.
      * intros Hk. by exists "", (String c s).
    + intros Hk. by exists "", (String c s).
Qed.

Lemma digitsPlus_sound {R} acc s (k : string → string → option R) r :
  digitsPlus acc s k = Some r →
  ∃ ds rest, s = ds +:+ rest ∧ digitRun ds = true ∧
             k (String.rev_app ds acc) rest = Some r.
Proof.
  unfold digitsPlus. destruct s as [|c s]; [done|].
  destruct (isDigit c) eqn:Hc; [|done].
  intros (ds & rest & -> & Hds & Hk)%digitsStar_sound.
  exists (String c ds), rest. unfold digitRun. simpl. by rewrite Hc, Hds.
Qed.

Lemma lookahead_sound acc s m :
  lookahead acc s = Some m →
  m = String.rev acc ∧ ∃ after, s = " PER SHARE" +:+ after.
Proof.
  unfold lookahead. destruct (String.prefix " PER SHARE" s) eqn:Hp; [|done].
  intros [= <-]. split; [done|]. by apply prefix_split.
Qed.

Lemma matchHere_sound s m :
  matchHere s = Some m →
  decimalNumber m ∧ ∃ after, s = m +:+ " PER SHARE" +:+ after.
Proof.
  unfold matchHere.
  intros (whole & rest & -> & Hwhole & Hk)%digitsPlus_sound.
  unfold fractionOpt in Hk.
  assert (lookahead (String.rev_app whole "") rest = Some m →
          decimalNumber m ∧ ∃ after, whole +:+ rest = m +:+ " PER SHARE" +:+ after)
    as Hplain.
  { intros (-> & after & ->)%lookahead_sound.
    rewrite rev_rev_app. split; [exists whole; by auto|by exists after]. }
  destruct rest as [|c rest]; [by apply Hplain|].
  destruct (ascii_dec c ".") as [->|Hne].
  - destruct (digitsPlus _ rest lookahead) as [m'|] eqn:Hgroup; [|by apply Hplain].
    injection Hk as ->.
    apply digitsPlus_sound in Hgroup as (frac & rest' & -> & Hfrac & Hk).
    apply lookahead_sound in Hk as (-> & after & ->).
    rewrite rev_rev_app. change (String.rev (String "." (String.rev_app whole "")))
      with (String.rev_app (String.rev_app whole "") ".").
    rewrite rev_app_rev_app. simpl. split.
    + exists whole. split; [done|]. right. exists frac. split; [done|].
      by rewrite app_assoc_string.
    + exists after. rewrite !app_assoc_string. by rewrite !app_cons.
  - assert (match String c rest with
            | String "."%char s' =>
                digitsPlus (String "."%char (String.rev_app whole "")) s' lookahead
            | _ => None
            end = None) as Hnone.
    { destruct c as [[] [] [] [] [] [] [] []]; try done. }
    rewrite Hnone in Hk. by apply Hplain.
Qed.

Lemma exec_cons c s :
  exec (String c s) =
  match matchHere (String c s) with
  | Some m => Some m
  | None => exec s
  end.
Proof. reflexivity. Qed.

Lemma exec_sound s m : exec s = Some m → hasPrice s.
Proof.
  induction s as [|c s IH].
  - done.
  - rewrite exec_cons. destruct (matchHere (String c s)) as [m'|] eqn:Hm.
    + intros _. apply matchHere_sound in Hm as (Hnum & after & Hs).
      exists "", m', after. by split.
    + intros (before & n & after & Hn & ->)%IH.
      exists (String c before), n, after. by split.
Qed.

Lemma digitsStar_complete {R} ds acc rest (k : string → string → option R) :
  allDigits ds = true →
  is_Some (k (String.rev_app ds acc) rest) →
  is_Some (digitsStar acc (ds +:+ rest) k).
Proof.
  revert acc. induction ds as [|c ds IH]; intros acc; simpl.
  - intros _ Hk. change ("" +:+ rest) with rest.
    destruct rest as [|c rest]; simpl; [done|].
    destruct (isDigit c); [|done].
    by destruct (digitsStar (String c acc) rest k).
  - intros [Hc Hds]%andb_true_iff Hk. rewrite ?app_cons. simpl. rewrite Hc.
    destruct (IH (String c acc) Hds Hk) as [r ->]. by eexists.
Qed.

Lemma digitsPlus_complete {R} ds acc rest (k : string → string → option R) :
  digitRun ds = true →
  is_Some (k (String.rev_app ds acc) rest) →
  is_Some (digitsPlus acc (ds +:+ rest) k).
Proof.
  unfold digitRun, digitsPlus. destruct ds as [|c ds]; [done|]. simpl.
  intros [Hc Hds]%andb_true_iff Hk. rewrite ?app_cons, Hc.
  by apply digitsStar_complete.
Qed.

Lemma lookahead_complete acc after :
  is_Some (lookahead acc (" PER SHARE" +:+ after)).
Proof.
  unfold lookahead.
  assert (String.prefix " PER SHARE" (" PER SHARE" +:+ after) = true) as ->;
    [|by eexists].
  apply prefix_split. by exists after.
Qed.

Lemma matchHere_complete n after :
  decimalNumber n → is_Some (matchHere (n +:+ " PER SHARE" +:+ after)).
Proof.
  intros (whole & Hwhole & [->|(frac & Hfrac & ->)]); unfold matchHere.
  - apply digitsPlus_complete; [done|]. unfold fractionOpt.
    change (" PER SHARE" +:+ after) with (String " " ("PER SHARE" +:+ after)).
    cbv match. apply (lookahead_complete _ after).
  - rewrite !app_assoc_string. apply digitsPlus_complete; [done|].
    unfold fractionOpt. rewrite app_cons.
    assert (is_Some (digitsPlus (String "." (String.rev_app whole ""))
                       ("" +:+ frac +:+ " PER SHARE" +:+ after) lookahead)) as [r Hr].
    { change ("" +:+ frac +:+ " PER SHARE" +:+ after)
        with (frac +:+ " PER SHARE" +:+ after).
      apply digitsPlus_complete; [done|]. apply lookahead_complete. }
    rewrite Hr. by eexists.
Qed.

Lemma exec_complete s : hasPrice s → is_Some (exec s).
Proof.
  intros (before & n & after & Hn & ->).
  induction before as [|c before IH].
  - change ("" +:+ n +:+ " PER SHARE" +:+ after) with (n +:+ " PER SHARE" +:+ after).
    destruct (matchHere_complete n after Hn) as [m Hm].
    destruct (n +:+ " PER SHARE" +:+ after) as [|c rest]; [done|].
    rewrite exec_cons, Hm. by eexists.
  - rewrite app_cons, exec_cons. by destruct (matchHere _).
Qed.

(** The pattern finds nothing exactly in the descriptions without a
    per-share price. *)
Lemma exec_None_iff s : exec s = None ↔ ¬ hasPrice s.
Proof.
  split.
  - intros Hnone [m Hm]%exec_complete. congruence.
  - intros Hno. destruct (exec s) as [m|] eqn:Hm; [|done].
    destruct Hno. by eapply exec_sound.
Qed.

End PerShareFacts.

(** ** The override table after the load *)

Lemma loadLine_entry this line :
  loadLine this line =
  match overrideEntry line with
  | Some entry => applyEntry this entry
  | None => this
  end.
Proof.
  unfold loadLine, overrideEntry, applyEntry.
  destruct (negb (Js.truthy (Js.trim line)) || Js.startsWith "#" (Js.trim line)); [done|].
  destruct (Js.split "=" (Js.trim line)) as [|p0 [|p1 [|p2 ps]]]; try done.
  by destruct (negb (Js.truthy (Js.trim p0)) || negb (Js.truthy (Js.trim p1))).
Qed.

Lemma foldl_loadLine this lines :
  foldl loadLine this lines = foldl applyEntry this (omap overrideEntry lines).
Proof.
  revert this. induction lines as [|line lines IH]; intros this; [done|].
  simpl. rewrite IH, loadLine_entry. by destruct (overrideEntry line).
Qed.

Lemma loadIsinOverrides_entries content :
  loadIsinOverrides (Some content) = foldl applyEntry noOverrides (overrideEntries content).
Proof. apply foldl_loadLine. Qed.

Lemma overrideEntry_truthy line isin key :
  overrideEntry line = Some (isin, key) → Js.truthy isin = true ∧ Js.truthy key = true.
Proof.
  unfold overrideEntry.
  destruct (negb (Js.truthy (Js.trim line)) || Js.startsWith "#" (Js.trim line)); [done|].
  destruct (Js.split "=" (Js.trim line)) as [|p0 [|p1 [|p2 ps]]]; try done.
  destruct (Js.truthy (Js.trim p0)) eqn:H0, (Js.truthy (Js.trim p1)) eqn:H1;
    simpl; try done.
  intros [= <- <-]. done.
Qed.

Lemma overrideEntries_truthy content entry :
  entry ∈ overrideEntries content → Js.truthy entry.1 = true ∧ Js.truthy entry.2 = true.
Proof.
  unfold overrideEntries. rewrite list_elem_of_omap.
  intros (line & _ & Hline). destruct entry as [isin key].
  by eapply overrideEntry_truthy.
Qed.

(** The manual set after the load: what was there, and every identifier
    of a line [isin=isin]. *)
Lemma manualIsins_foldl entries this isin :
  isin ∈ manualIsins (foldl applyEntry this entries) ↔
  isin ∈ manualIsins this ∨ (isin, isin) ∈ entries.
Proof.
  revert this. induction entries as [|[k v] entries IH]; intros this; simpl.
  - set_solver.
  - rewrite IH. unfold applyEntry; simpl. destruct (decide (k = v)) as [->|Hne]; simpl.
    + rewrite elem_of_cons. set_solver.
    + rewrite elem_of_cons. split; [naive_solver|].
      intros [?|[[= -> ->]|?]]; by auto.
Qed.

(** The replacement map after the load: the key of the last replacement
    line, or what was there. *)
Lemma isinOverrides_foldl entries this isin :
  isinOverrides (foldl applyEntry this entries) !! isin =
  match lastReplacement isin entries with
  | Some key => Some key
  | None => isinOverrides this !! isin
  end.
Proof.
  revert this. induction entries as [|[k v] entries IH]; intros this; simpl; [done|].
  rewrite IH. destruct (lastReplacement isin entries); [done|].
  unfold applyEntry; simpl.
  destruct (decide (k = v)) as [->|Hne]; simpl.
  - rewrite decide_False by naive_solver. done.
  - destruct (decide (k = isin)) as [->|Hk].
    + rewrite decide_True by done. by rewrite lookup_insert_eq.
    + rewrite decide_False by naive_solver. by rewrite lookup_insert_ne.
Qed.

Lemma lastReplacement_elem isin entries key :
  lastReplacement isin entries = Some key → (isin, key) ∈ entries ∧ key ≠ isin.
Proof.
  induction entries as [|[k v] entries IH]; simpl; [done|].
  destruct (lastReplacement isin entries) as [w|].
  - intros [= ->]. destruct IH as [??]; [done|]. split; [by right|done].
  - case_decide as H; [|done]. simpl in H. destruct H as [-> ?].
    intros [= ->]. split; [by left|done].
Qed.

Lemma lastReplacement_app isin e1 e2 :
  lastReplacement isin (e1 ++ e2) =
  match lastReplacement isin e2 with
  | Some key => Some key
  | None => lastReplacement isin e1
  end.
Proof.
  induction e1 as [|entry e1 IH]; simpl.
  - by destruct (lastReplacement isin e2).
  - rewrite IH. by destruct (lastReplacement isin e2).
Qed.

Lemma lastReplacement_None isin entries :
  (∀ key, (isin, key) ∈ entries → key = isin) → lastReplacement isin entries = None.
Proof.
  intros H. destruct (lastReplacement isin entries) as [key|] eqn:E; [|done].
  apply lastReplacement_elem in E as [Hin Hne]. by apply H in Hin.
Qed.

(** A replacement key in the loaded table is never the empty string. *)
Lemma getSymbolOverride_truthy file isin key :
  getSymbolOverride (loadIsinOverrides file) isin = Some key → Js.truthy key = true.
Proof.
  destruct file as [content|]; [|done].
  unfold getSymbolOverride. rewrite loadIsinOverrides_entries, isinOverrides_foldl.
  destruct (lastReplacement isin (overrideEntries content)) as [w|] eqn:E; [|done].
  intros [= ->]. apply lastReplacement_elem in E as [Hin _].
  by apply overrideEntries_truthy in Hin as [_ ?].
Qed.

Section Resolution.

Context {num lookupError : Type} {rt : Runtime num} {svc : SecurityService lookupError}.

(** The queries that an iteration sends are those of the resolution. *)
Lemma classifyRecord_asked st record cur security source :
  asked (stateOf (lookupError := lookupError)
           (classifyRecord st record cur security source)) = asked st.
Proof.
  unfold classifyRecord, pushActivity.
  repeat (case_match; simpl; try done).
Qed.

Lemma processRecord_asked this st record :
  asked (stateOf (processRecord this st record)) =
  if isIgnoredRecord record then asked st
  else asked st ++ (resolveSecurity this (rec_isin record) (recordCurrency record)).2.
Proof.
  unfold processRecord. destruct (isIgnoredRecord record); [done|].
  destruct (resolveSecurity _ _ _) as [[[security|] source|e] sent]; simpl; try done.
  by rewrite classifyRecord_asked.
Qed.

(** C3: the resolution of a record that the loop does not ignore follows
    a strict precedence.  A manual identifier yields the synthetic security
    [GF_<isin>] with the currency of the record, or USD when the record
    has none or an empty one, the identifier as name and the MANUAL
    source, and the iteration sends no query; otherwise an identifier
    with a replacement key makes the iteration send one query, which
    carries the key as symbol and no identifier; otherwise the one query
    sent carries the identifier.  The currency of the record is that of
    its [currency] field when this is not empty, that of its
    [tradeCurrency] field otherwise, with GBp written for GBX. *)
Theorem resolution_precedence
    (file : option string) (st : Progress) (record : IbkrRecord) :
  isIgnoredRecord record = false →
  let this := loadIsinOverrides file in
  let isin := rec_isin record in
  let cur := recordCurrency record in
  (isManualIsin this isin = true →
     resolveSecurity this isin cur =
       (Resolved (Some {| sec_symbol := "GF_" +:+ isin;
                          sec_currency := match cur with
                                          | Some c => if Js.truthy c then c else "USD"
                                          | None => "USD"
                                          end;
                          sec_name := isin |}) MANUAL, []) ∧
     asked (stateOf (processRecord this st record)) = asked st) ∧
  (isManualIsin this isin = false →
     ∀ key, getSymbolOverride this isin = Some key →
       let q := {| q_isin := None; q_symbol := Some key; q_name := None;
                   q_currency := cur |} in
       resolveSecurity this isin cur = (awaitSecurity q, [q]) ∧
       asked (stateOf (processRecord this st record)) = asked st ++ [q]) ∧
  (isManualIsin this isin = false →
     getSymbolOverride this isin = None →
       let q := {| q_isin := Some isin; q_symbol := None; q_name := None;
                   q_currency := cur |} in
       resolveSecurity this isin cur = (awaitSecurity q, [q]) ∧
       asked (stateOf (processRecord this st record)) = asked st ++ [q]) ∧
  cur =
    match record with
    | DividendRow d =>
        if Js.truthy (div_currency d)
        then Some (if decide (div_currency d = "GBX") then "GBp" else div_currency d)
        else None
    | TradeRow t =>
        Some (if decide (trd_tradeCurrency t = "GBX") then "GBp"
              else trd_tradeCurrency t)
    end.
Proof.
  intros Hign this isin cur.
  pose proof (processRecord_asked this st record) as Hasked.
  rewrite Hign in Hasked. fold isin cur in Hasked. rewrite Hasked.
  unfold resolveSecurity. split_and!.
  - intros ->. simpl. by rewrite app_nil_r.
  - intros Hman key Hkey. simpl. rewrite Hman, Hkey.
    by rewrite (getSymbolOverride_truthy file isin key Hkey).
  - intros Hman Hkey. simpl. by rewrite Hman, Hkey.
  - unfold cur, recordCurrency. destruct record as [d|t]; simpl.
    + destruct (Js.truthy (div_currency d)); [|done].
      destruct (decide (div_currency d = "GBX")) as [->|Hne]; [done|].
      rewrite decide_False by congruence. done.
    + destruct (decide (trd_tradeCurrency t = "GBX")) as [->|Hne]; [done|].
      rewrite decide_False by congruence. done.
Qed.

Lemma manualIsins_loaded content isin :
  isin ∈ manualIsins (loadIsinOverrides (Some content)) ↔
  (isin, isin) ∈ overrideEntries content.
Proof.
  rewrite loadIsinOverrides_entries, manualIsins_foldl. simpl. set_solver.
Qed.

(** C9: an identifier that some valid line of the override file lists as
    [isin=isin] is resolved to the synthetic manual security without any
    query, whatever the other lines of the file are and wherever they
    stand; an iteration over a record with that identifier sends nothing
    to the external lookup. *)
Theorem manual_isin_never_queried (content isin : string) :
  (isin, isin) ∈ overrideEntries content →
  let this := loadIsinOverrides (Some content) in
  isManualIsin this isin = true ∧
  (∀ cur, resolveSecurity this isin cur =
          (Resolved (Some (manualSecurity isin cur)) MANUAL, [])) ∧
  (∀ st record, rec_isin record = isin →
     asked (stateOf (processRecord this st record)) = asked st).
Proof.
  intros Hin this.
  assert (isManualIsin this isin = true) as Hman.
  { unfold isManualIsin. apply bool_decide_eq_true. by apply manualIsins_loaded. }
  split_and!; [done| |].
  - intros cur. unfold resolveSecurity. by rewrite Hman.
  - intros st record <-. rewrite processRecord_asked.
    destruct (isIgnoredRecord record); [done|].
    unfold resolveSecurity. rewrite Hman. simpl. by rewrite app_nil_r.
Qed.

(** C2, as amended: the later of two valid lines about an identifier, when
    no line after it names the identifier, decides the resolution in two
    cases: when it is a manual line, and when it is a replacement line and
    no earlier line lists the identifier as manual.  A manual line is never
    overwritten: with an earlier manual line the resolution stays manual.
    The replacement map holds one key for the identifier, that of the last
    replacement line. *)
Theorem later_line_wins_unless_manual
    (content : string) (earlier later : list (string * string))
    (isin value : string) (cur : option string) :
  overrideEntries content = earlier ++ (isin, value) :: later →
  (∀ v, (isin, v) ∉ later) →
  let this := loadIsinOverrides (Some content) in
  (value = isin →
     resolveSecurity this isin cur = resolveByLine isin value cur) ∧
  (value ≠ isin → (isin, isin) ∉ earlier →
     getSymbolOverride this isin = Some value ∧
     resolveSecurity this isin cur = resolveByLine isin value cur) ∧
  (value ≠ isin → (isin, isin) ∈ earlier →
     getSymbolOverride this isin = Some value ∧
     resolveSecurity this isin cur =
       (Resolved (Some (manualSecurity isin cur)) MANUAL, [])).
Proof.
  intros Hentries Hlast this.
  assert (lastReplacement isin later = None) as Hlater.
  { apply lastReplacement_None. intros key Hin. by apply Hlast in Hin. }
  assert (value ≠ isin → getSymbolOverride this isin = Some value) as Hkey.
  { intros Hne. unfold getSymbolOverride, this.
    rewrite loadIsinOverrides_entries, isinOverrides_foldl, Hentries.
    rewrite lastReplacement_app. simpl. rewrite Hlater.
    by rewrite decide_True. }
  assert (isin ∈ manualIsins this ↔ value = isin ∨ (isin, isin) ∈ earlier) as Hman.
  { unfold this. rewrite manualIsins_loaded, Hentries, elem_of_app, elem_of_cons.
    split.
    - intros [?|[[= ?]|Hin]]; [by right|by left|by apply Hlast in Hin].
    - intros [->|?]; [right; by left|by left]. }
  unfold resolveByLine, resolveSecurity, isManualIsin. split_and!.
  - intros ->. rewrite bool_decide_eq_true_2 by (apply Hman; by left).
    by rewrite decide_True.
  - intros Hne Hearlier. split; [by apply Hkey|].
    rewrite bool_decide_eq_false_2 by (rewrite Hman; naive_solver).
    rewrite (Hkey Hne), decide_False by done.
    assert (Js.truthy value = true) as ->; [|done].
    apply (overrideEntries_truthy content (isin, value)).
    rewrite Hentries, elem_of_app, elem_of_cons. right; by left.
  - intros Hne Hearlier. split; [by apply Hkey|].
    by rewrite bool_decide_eq_true_2 by (apply Hman; by right).
Qed.

End Resolution.

Section Reconciliation.

Context {num lookupError : Type} {rt : Runtime num} {svc : SecurityService lookupError}.

(** *** The loop *)

Lemma processRecords_app this st l1 l2 :
  processRecords this st (l1 ++ l2) =
  match processRecords this st l1 with
  | Next st' => processRecords this st' l2
  | Abort error st' => Abort error st'
  end.
Proof.
  revert st. induction l1 as [|record l1 IH]; intros st; simpl; [done|].
  destruct (processRecord this st record); [apply IH|done].
Qed.

Lemma processRecords_pair this st r1 st1 r2 st2 :
  processRecord this st r1 = Next st1 →
  processRecord this st1 r2 = Next st2 →
  processRecords this st [r1; r2] = Next st2.
Proof. intros H1 H2. simpl. by rewrite H1, H2. Qed.

Lemma processRecord_resolved this st record security source sent :
  isIgnoredRecord record = false →
  resolveSecurity this (rec_isin record) (recordCurrency record) =
    (Resolved (Some security) source, sent) →
  processRecord this st record =
  classifyRecord {| built := built st; asked := asked st ++ sent |}
    record (recordCurrency record) security source.
Proof. intros Hign Hres. unfold processRecord. by rewrite Hign, Hres. Qed.


(** Every run invokes exactly one callback. *)
Lemma one_callback_per_run this err records :
  length (callbacks (processFileContents this err records)) = 1.
Proof.
  unfold processFileContents.
  destruct err, records as [[|r rs]|]; try done.
  by destruct (processRecords this initial (r :: rs)).
Qed.

Lemma processFileContents_rows this before record after :
  processFileContents this None (Some (before ++ record :: after)) =
  match processRecords this initial (before ++ record :: after) with
  | Next st =>
      {| callbacks := [successCallback
           {| meta_date := newDate; meta_version := "v0"; activities := built st |}];
         queries := asked st |}
  | Abort error st =>
      {| callbacks := [errorCallback error]; queries := asked st |}
  end.
Proof.
  unfold processFileContents.
  destruct (before ++ record :: after) as [|r rs] eqn:E; [|done].
  by destruct before.
Qed.


(** C5: a dividend record that the loop reaches and classifies (it has an
    identifier, a currency and a resolved security), that is no payment in
    lieu and whose description has no decimal number immediately followed
    by [" PER SHARE"], makes the loop throw: the run reports the error
    through the error callback alone, and the loop leaves with the
    activities of the records before it, so neither this record nor a later
    one adds an activity. *)
Theorem missing_price_aborts_batch
    (this : IbkrConverter) (before after : list IbkrRecord) (st : Progress)
    (d : IbkrDividendRecord) (security : YahooFinanceRecord)
    (source : DataSource) (sent : list Query) :
  processRecords this initial before = Next st →
  isIgnoredRecord (DividendRow d) = false →
  Js.truthy (div_currency d) = true →
  resolveSecurity this (div_isin d) (recordCurrency (DividendRow d)) =
    (Resolved (Some security) source, sent) →
  Js.includes "in lieu of" (toLocaleLowerCase (div_description d)) = false →
  ¬ PerShare.hasPrice (div_description d) →
  processRecords this initial (before ++ DividendRow d :: after) =
    Abort NullMatchTypeError {| built := built st; asked := asked st ++ sent |} ∧
  processFileContents this None (Some (before ++ DividendRow d :: after)) =
    {| callbacks := [errorCallback NullMatchTypeError];
       queries := asked st ++ sent |}.
Proof.
  intros Hbefore Hign Hcur Hres Hpil Hprice.
  apply PerShareFacts.exec_None_iff in Hprice.
  assert (processRecords this initial (before ++ DividendRow d :: after) =
          Abort NullMatchTypeError {| built := built st; asked := asked st ++ sent |})
    as Hloop.
  { rewrite processRecords_app, Hbefore. simpl.
    rewrite (processRecord_resolved _ _ _ security source sent Hign Hres).
    unfold classifyRecord. simpl. by rewrite Hcur, Hpil, Hprice. }
  split; [done|]. by rewrite processFileContents_rows, Hloop.
Qed.

(** C7: a dividend record that the loop classifies and whose description,
    in lower case, contains ["in lieu of"] adds one new activity behind the
    activities built so far, which stay as they are whether or not one of
    them would match: its quantity is the amount, its unit price and its
    fee are 0 and its comment is the description. *)
Theorem payment_in_lieu_appends
    (this : IbkrConverter) (st : Progress) (d : IbkrDividendRecord)
    (security : YahooFinanceRecord) (source : DataSource) (sent : list Query) :
  isIgnoredRecord (DividendRow d) = false →
  Js.truthy (div_currency d) = true →
  resolveSecurity this (div_isin d) (recordCurrency (DividendRow d)) =
    (Resolved (Some security) source, sent) →
  Js.includes "in lieu of" (toLocaleLowerCase (div_description d)) = true →
  processRecord this st (DividendRow d) =
  Next {| built := built st ++
            [ {| accountId := GHOSTFOLIO_ACCOUNT_ID;
                 comment := div_description d;
                 fee := Some zero;
                 quantity := Some (div_amount d);
                 type := Some dividend;
                 unitPrice := Some zero;
                 currency := recordCurrency (DividendRow d);
                 dataSource := source;
                 date := dayjsParsedFormat (div_date d);
                 symbol := sec_symbol security |} ];
          asked := asked st ++ sent |}.
Proof.
  intros Hign Hcur Hres Hpil.
  rewrite (processRecord_resolved _ _ _ security source sent Hign Hres).
  unfold classifyRecord. simpl. by rewrite Hcur, Hpil.
Qed.

(** C10: a record of type [dividendTax] for which the matcher finds no
    activity adds a new activity of order type [dividend], with quantity
    0, the per-share price of the description as unit price, the absolute
    amount as fee and the description as comment. *)
Theorem unmatched_tax_emits_dividend
    (this : IbkrConverter) (st : Progress) (d : IbkrDividendRecord)
    (security : YahooFinanceRecord) (source : DataSource) (sent : list Query)
    (matched : string) :
  isIgnoredRecord (DividendRow d) = false →
  Js.truthy (div_currency d) = true →
  resolveSecurity this (div_isin d) (recordCurrency (DividendRow d)) =
    (Resolved (Some security) source, sent) →
  div_type d = "dividendTax" →
  Js.includes "in lieu of" (toLocaleLowerCase (div_description d)) = false →
  PerShare.exec (div_description d) = Some matched →
  findExactDividendMatch d (sec_symbol security) (built st) = None →
  processRecord this st (DividendRow d) =
  Next {| built := built st ++
            [ {| accountId := GHOSTFOLIO_ACCOUNT_ID;
                 comment := div_description d;
                 fee := Some (Math_abs (div_amount d));
                 quantity := Some zero;
                 type := Some dividend;
                 unitPrice := Some (parseFloat matched);
                 currency := recordCurrency (DividendRow d);
                 dataSource := source;
                 date := dayjsParsedFormat (div_date d);
                 symbol := sec_symbol security |} ];
          asked := asked st ++ sent |}.
Proof.
  intros Hign Hcur Hres Htax Hpil Hprice Hfind.
  rewrite (processRecord_resolved _ _ _ security source sent Hign Hres).
  unfold classifyRecord. simpl. rewrite Hcur, Hpil, Hprice. simpl.
  rewrite Hfind. unfold pushActivity, newActivity. simpl.
  by rewrite bool_decide_eq_true_2.
Qed.

(** *** The currency code GBX *)

Lemma recordCurrency_not_GBX (record : @IbkrRecord num) :
  recordCurrency record ≠ Some "GBX".
Proof. unfold recordCurrency. by case_decide. Qed.

Lemma recordCurrency_dividend (d : @IbkrDividendRecord num) :
  Js.truthy (div_currency d) = true →
  recordCurrency (DividendRow d) =
  if decide (div_currency d = "GBX") then Some "GBp" else Some (div_currency d).
Proof.
  intros Hcur. unfold recordCurrency. simpl. rewrite Hcur.
  destruct (decide (div_currency d = "GBX")) as [->|Hne]; [done|].
  rewrite decide_False; [done|congruence].
Qed.

Lemma classifyRecord_noRawGBX st record cur security source :
  cur ≠ Some "GBX" →
  noRawGBX (built st) →
  noRawGBX (built (stateOf (lookupError := lookupError)
                     (classifyRecord st record cur security source))).
Proof.
  intros Hcur Hst. unfold classifyRecord, pushActivity, noRawGBX in *.
  repeat (case_match; simpl; try done);
    try (apply Forall_app; split; [done|by apply Forall_singleton]);
    by apply Forall_alter.
Qed.

Lemma processRecord_noRawGBX this st record :
  noRawGBX (built st) → noRawGBX (built (stateOf (processRecord this st record))).
Proof.
  intros Hst. unfold processRecord. destruct (isIgnoredRecord record); [done|].
  destruct (resolveSecurity _ _ _) as [[[security|] source|e] sent]; simpl; try done.
  apply classifyRecord_noRawGBX; [apply recordCurrency_not_GBX|done].
Qed.

Lemma processRecords_noRawGBX this st records :
  noRawGBX (built st) → noRawGBX (built (stateOf (processRecords this st records))).
Proof.
  revert st. induction records as [|record records IH]; intros st Hst; simpl; [done|].
  pose proof (processRecord_noRawGBX this st record Hst) as Hstep.
  destruct (processRecord this st record); [by apply IH|done].
Qed.

(** The activities of a state that the loop reaches never carry GBX. *)
Lemma reached_noRawGBX this records st :
  processRecords this initial records = Next st → noRawGBX (built st).
Proof.
  intros Hrun.
  pose proof (processRecords_noRawGBX this initial records) as H.
  rewrite Hrun in H. apply H. constructor.
Qed.

Lemma GBX_record_finds_nothing d sym acts :
  noRawGBX acts → div_currency d = "GBX" →
  findExactDividendMatch d sym acts = None.
Proof.
  intros Hacts Hcur. apply list_find_None.
  eapply Forall_impl; [exact Hacts|].
  intros a Ha (_ & Hc & _). rewrite Hcur in Hc. done.
Qed.

Lemma classifyRecord_unmatched st d matched security source :
  Js.truthy (div_currency d) = true →
  Js.includes "in lieu of" (toLocaleLowerCase (div_description d)) = false →
  PerShare.exec (div_description d) = Some matched →
  findExactDividendMatch d (sec_symbol security) (built st) = None →
  classifyRecord (lookupError := lookupError) st (DividendRow d)
    (recordCurrency (DividendRow d)) security source =
  Next {| built := built st ++ [unmergedActivity d matched security source];
          asked := asked st |}.
Proof.
  intros Hcur Hpil Hprice Hfind. unfold classifyRecord. simpl.
  by rewrite Hcur, Hpil, Hprice, Hfind.
Qed.

(** A dividend record in GBX that the loop classifies, a payment in lieu
    or not, never changes an activity built before it: the iteration
    throws for want of a price or adds one activity, in GBp. *)
Lemma GBX_record_adds_activity this before st d security source sent :
  processRecords this initial before = Next st →
  div_currency d = "GBX" →
  isIgnoredRecord (DividendRow d) = false →
  resolveSecurity this (div_isin d) (recordCurrency (DividendRow d)) =
    (Resolved (Some security) source, sent) →
  processRecord this st (DividendRow d) =
    Abort NullMatchTypeError {| built := built st; asked := asked st ++ sent |} ∨
  ∃ a, currency a = Some "GBp" ∧ comment a = div_description d ∧
       processRecord this st (DividendRow d) =
       Next {| built := built st ++ [a]; asked := asked st ++ sent |}.
Proof.
  intros Hbefore Hgbx Hign Hres.
  assert (Js.truthy (div_currency d) = true) as Hcur by by rewrite Hgbx.
  pose proof (recordCurrency_dividend d Hcur) as Hrc.
  rewrite decide_True in Hrc by done.
  rewrite (processRecord_resolved _ _ _ security source sent Hign Hres).
  unfold classifyRecord. cbn [asDividendRecord built asked]. rewrite Hcur.
  destruct (Js.includes "in lieu of" _).
  - right. eexists. split_and!; [| |reflexivity]; [by rewrite Hrc|done].
  - destruct (PerShare.exec (div_description d)) as [matched|]; [|by left].
    right. cbn zeta.
    rewrite (GBX_record_finds_nothing d (sec_symbol security) (built st));
      [|by eapply reached_noRawGBX|done].
    eexists. split_and!; [| |reflexivity]; [by rewrite Hrc|done].
Qed.

(** C8: two dividend records in GBX that the loop classifies, each with a
    per-share price, never merge, whatever their symbols, dates and
    descriptions: the matcher, which compares the currency of an activity
    with the raw code GBX, finds nothing for either, and each adds its own
    activity, whose currency is GBp. *)
Theorem gbx_records_never_merge
    (this : IbkrConverter) (before : list IbkrRecord) (st : Progress)
    (d1 d2 : IbkrDividendRecord) (s1 s2 : YahooFinanceRecord)
    (src1 src2 : DataSource) (sent1 sent2 : list Query) (m1 m2 : string) :
  processRecords this initial before = Next st →
  div_currency d1 = "GBX" →
  div_currency d2 = "GBX" →
  isIgnoredRecord (DividendRow d1) = false →
  isIgnoredRecord (DividendRow d2) = false →
  resolveSecurity this (div_isin d1) (recordCurrency (DividendRow d1)) =
    (Resolved (Some s1) src1, sent1) →
  resolveSecurity this (div_isin d2) (recordCurrency (DividendRow d2)) =
    (Resolved (Some s2) src2, sent2) →
  Js.includes "in lieu of" (toLocaleLowerCase (div_description d1)) = false →
  Js.includes "in lieu of" (toLocaleLowerCase (div_description d2)) = false →
  PerShare.exec (div_description d1) = Some m1 →
  PerShare.exec (div_description d2) = Some m2 →
  let a1 := unmergedActivity d1 m1 s1 src1 in
  let a2 := unmergedActivity d2 m2 s2 src2 in
  currency a1 = Some "GBp" ∧ currency a2 = Some "GBp" ∧
  findExactDividendMatch d1 (sec_symbol s1) (built st) = None ∧
  findExactDividendMatch d2 (sec_symbol s2) (built st ++ [a1]) = None ∧
  processRecords this st [DividendRow d1; DividendRow d2] =
    Next {| built := built st ++ [a1; a2];
            asked := (asked st ++ sent1) ++ sent2 |}.
Proof.
  intros Hbefore Hc1 Hc2 Hi1 Hi2 Hr1 Hr2 Hp1 Hp2 Hm1 Hm2 a1 a2.
  assert (Js.truthy (div_currency d1) = true) as Ht1 by by rewrite Hc1.
  assert (Js.truthy (div_currency d2) = true) as Ht2 by by rewrite Hc2.
  assert (currency a1 = Some "GBp") as Hcur1.
  { unfold a1, unmergedActivity. simpl. rewrite (recordCurrency_dividend d1 Ht1).
    by rewrite decide_True. }
  assert (currency a2 = Some "GBp") as Hcur2.
  { unfold a2, unmergedActivity. simpl. rewrite (recordCurrency_dividend d2 Ht2).
    by rewrite decide_True. }
  pose proof (reached_noRawGBX this before st Hbefore) as Hst.
  assert (noRawGBX (built st ++ [a1])) as Hst1.
  { apply Forall_app. split; [done|]. apply Forall_singleton. by rewrite Hcur1. }
  pose proof (GBX_record_finds_nothing d1 (sec_symbol s1) _ Hst Hc1) as Hf1.
  pose proof (GBX_record_finds_nothing d2 (sec_symbol s2) _ Hst1 Hc2) as Hf2.
  split_and!; try done.
  apply (processRecords_pair _ _ _
           {| built := built st ++ [a1]; asked := asked st ++ sent1 |}).
  - rewrite (processRecord_resolved _ _ _ s1 src1 sent1 Hi1 Hr1).
    by apply (classifyRecord_unmatched {| built := built st; asked := asked st ++ sent1 |}).
  - rewrite (processRecord_resolved _ _ _ s2 src2 sent2 Hi2 Hr2).
    cbn [built asked].
    rewrite (classifyRecord_unmatched
               {| built := built st ++ [a1]; asked := (asked st ++ sent1) ++ sent2 |}
               d2 m2 s2 src2 Ht2 Hp2 Hm2 Hf2).
    simpl. by rewrite <- app_assoc.
Qed.

(** *** Merging a dividend with its tax *)

Lemma find_in_last (P : @GhostfolioActivity num → Prop) `{∀ a, Decision (P a)}
    (acts : list GhostfolioActivity) (a : GhostfolioActivity) :
  list_find P acts = None → P a →
  list_find P (acts ++ [a]) = Some (length acts, a).
Proof.
  intros Hnone Ha. rewrite list_find_app_r by done. simpl.
  by rewrite decide_True.
Qed.

Lemma alter_last {A} (f : A → A) (l : list A) (a : A) :
  alter f (length l) (l ++ [a]) = l ++ [f a].
Proof.
  rewrite <- (Nat.add_0_r (length l)) at 1. by rewrite alter_app_r.
Qed.


End Reconciliation.

(** ** Schema detection *)

Lemma prefix_empty (s : string) : String.prefix "" s = true.
Proof. by destruct s. Qed.

Lemma splitOn_char_length (c : ascii) (cur s : string) :
  length (Js.splitOn (String c "") 0 cur s) = S (Js.occurrences c s).
Proof.
  revert cur. induction s as [|d s IH]; intros cur; [done|].
  cbn [Js.splitOn Js.occurrences String.prefix].
  destruct (ascii_dec c d) as [->|Hne].
  - rewrite prefix_empty, decide_True by done. simpl. by rewrite IH.
  - rewrite decide_False by done. by rewrite IH.
Qed.

(** With a delimiter of one character, a line has one field more than it
    has delimiters. *)
Lemma split_char_length (c : ascii) (s : string) :
  length (Js.split (String c "") s) = S (Js.occurrences c s).
Proof. apply splitOn_char_length. Qed.

(** The layout depends on the number of commas of the header line only. *)
Lemma processHeaders_commas (input : string) :
  processHeaders input "," =
  if 6 <=? Js.occurrences "," (firstLine input) then tradeColumns else dividendColumns.
Proof. unfold processHeaders. by rewrite split_char_length. Qed.

Lemma rev_of_rev_app (l : string) : String.rev (String.rev_app l "") = l.
Proof. by rewrite rev_rev_app. Qed.

Lemma occurrences_app (c : ascii) (s t : string) :
  Js.occurrences c (s +:+ t) = Js.occurrences c s + Js.occurrences c t.
Proof.
  induction s as [|d s IH]; [done|]. rewrite app_cons. simpl. rewrite IH. lia.
Qed.

Lemma splitOn_char_app (c : ascii) (l cur rest : string) :
  Js.occurrences c l = 0 →
  Js.splitOn (String c "") 0 cur (l +:+ String c rest) =
  String.rev (String.rev_app l cur) :: Js.splitOn (String c "") 0 "" rest.
Proof.
  revert cur. induction l as [|d l IH]; intros cur Hl.
  - change ("" +:+ String c rest) with (String c rest).
    cbn [Js.splitOn String.prefix]. destruct (ascii_dec c c); [|done].
    by rewrite prefix_empty.
  - rewrite app_cons. cbn [Js.occurrences] in Hl.
    destruct (decide (c = d)) as [->|Hne]; [lia|].
    cbn [Js.splitOn String.prefix]. destruct (ascii_dec c d); [done|].
    rewrite IH by (simpl in Hl; lia). done.
Qed.

Lemma splitOn_char_none (c : ascii) (l cur : string) :
  Js.occurrences c l = 0 →
  Js.splitOn (String c "") 0 cur l = [String.rev (String.rev_app l cur)].
Proof.
  revert cur. induction l as [|d l IH]; intros cur Hl; [done|].
  cbn [Js.occurrences] in Hl.
  destruct (decide (c = d)) as [->|Hne]; [lia|].
  cbn [Js.splitOn String.prefix]. destruct (ascii_dec c d); [done|].
  rewrite IH by (simpl in Hl; lia). done.
Qed.

(** Splitting at the first separator. *)
Lemma split_char_app (c : ascii) (l rest : string) :
  Js.occurrences c l = 0 →
  Js.split (String c "") (l +:+ String c rest) = l :: Js.split (String c "") rest.
Proof.
  intros Hl. unfold Js.split. rewrite splitOn_char_app by done.
  by rewrite rev_of_rev_app.
Qed.

Lemma split_char_none (c : ascii) (l : string) :
  Js.occurrences c l = 0 → Js.split (String c "") l = [l].
Proof.
  intros Hl. unfold Js.split. rewrite splitOn_char_none by done.
  by rewrite rev_of_rev_app.
Qed.

Lemma firstLine_app (header body : string) :
  Js.occurrences "010" header = 0 →
  firstLine (header +:+ Js.LF +:+ body) = header.
Proof.
  intros Hh. unfold firstLine, Js.LF.
  change (header +:+ String "010" "" +:+ body) with (header +:+ String "010" ("" +:+ body)).
  by rewrite split_char_app.
Qed.

Lemma firstLine_alone (header : string) :
  Js.occurrences "010" header = 0 → firstLine header = header.
Proof. intros Hh. unfold firstLine, Js.LF. by rewrite split_char_none. Qed.

(** C6: the layout is a function of the header line, the text of the
    input before its first line feed, and of the header line only through
    the number [n] of fields that the delimiter splits it into: the nine
    trade columns when [n] is more than 6, the six dividend columns
    otherwise, so 7 fields select the trade layout and 6 the dividend
    layout.  The rows below the header play no part, and neither do the
    names in the header: an input whose header line has the same number
    of fields gets the same layout. *)
Theorem processHeaders_by_field_count (header body splitChar : string) (n : nat) :
  Js.occurrences "010" header = 0 →
  length (Js.split splitChar header) = n →
  let input := header +:+ Js.LF +:+ body in
  (6 < n → processHeaders input splitChar =
     ["type"; "date"; "isin"; "quantity"; "price"; "totalAmount";
      "tradeCurrency"; "commission"; "commissionCurrency"]) ∧
  (n ≤ 6 → processHeaders input splitChar =
     ["type"; "date"; "isin"; "description"; "amount"; "currency"]) ∧
  (n = 7 → processHeaders input splitChar = tradeColumns) ∧
  (n = 6 → processHeaders input splitChar = dividendColumns) ∧
  processHeaders header splitChar = processHeaders input splitChar ∧
  (∀ header' body',
     Js.occurrences "010" header' = 0 →
     length (Js.split splitChar header') = n →
     processHeaders (header' +:+ Js.LF +:+ body') splitChar =
     processHeaders input splitChar).
Proof.
  intros Hline Hn input. unfold input, processHeaders.
  rewrite (firstLine_app header body Hline), (firstLine_alone header Hline), Hn.
  split_and!.
  - intros H. by rewrite (proj2 (Nat.ltb_lt 6 n) H).
  - intros H. by rewrite (proj2 (Nat.ltb_ge 6 n) H).
  - by intros ->.
  - by intros ->.
  - done.
  - intros header' body' Hline' Hn'. by rewrite (firstLine_app header' body' Hline'), Hn'.
Qed.

(** * The properties on the sample rows *)

#[local] Existing Instance Exact.runtime.
#[local] Existing Instance Exact.service.

(** The header of a trade export has seven fields, the header of a
    dividend export six, whatever the number of fields of the rows
    below. *)
Lemma processHeaders_by_field_count_witness :
  processHeaders
    ("Type,Date,ISIN,Quantity,Price,Amount,Currency" +:+ Js.LF +:+
     "BUY,20230105,US0378331005,10") "," = tradeColumns ∧
  processHeaders
    ("Type,Date,ISIN,Description,Amount,Currency" +:+ Js.LF +:+
     "Dividends,20230105,US0378331005,AAPL,CASH DIVIDEND,0.24 PER SHARE,2.40,USD")
    "," = dividendColumns.
Proof.
  split.
  - destruct (processHeaders_by_field_count
                "Type,Date,ISIN,Quantity,Price,Amount,Currency"
                "BUY,20230105,US0378331005,10" "," 7)
      as (_ & _ & H7 & _); [evaluated..|]. by apply H7.
  - destruct (processHeaders_by_field_count
                "Type,Date,ISIN,Description,Amount,Currency"
                "Dividends,20230105,US0378331005,AAPL,CASH DIVIDEND,0.24 PER SHARE,2.40,USD"
                "," 6)
      as (_ & _ & _ & H6 & _); [evaluated..|]. by apply H6.
Defined.

(** The three cases of the precedence: a manual identifier, an identifier
    with a replacement key, and an identifier that no line names; and the
    currency of the synthetic security: that of a purchase in pence, and
    USD for a record without currency. *)
Lemma resolution_precedence_witness :
  resolveSecurity (loadIsinOverrides (Some Samples.manualAmongReplacements))
    Samples.appleIsin (Some "USD") =
    (Resolved (Some {| sec_symbol := "GF_US0378331005"; sec_currency := "USD";
                       sec_name := "US0378331005" |}) MANUAL, []) ∧
  resolveSecurity (loadIsinOverrides (Some Samples.twoReplacements))
    Samples.appleIsin (Some "USD") =
    (Resolved (Some Exact.apple) YAHOO, [Samples.appleSymbolQuery]) ∧
  resolveSecurity (loadIsinOverrides None) Samples.appleIsin (Some "USD") =
    (Resolved (Some Exact.apple) YAHOO, [Samples.appleQuery]) ∧
  (recordCurrency Batches.vodafoneBuy = Some "GBp" ∧
   resolveSecurity (loadIsinOverrides (Some Batches.vodafoneByHand))
     Samples.vodafoneIsin (recordCurrency Batches.vodafoneBuy) =
     (Resolved (Some {| sec_symbol := "GF_GB00BH4HKS39"; sec_currency := "GBp";
                        sec_name := "GB00BH4HKS39" |}) MANUAL, [])) ∧
  (recordCurrency Batches.currencylessDividend = None ∧
   resolveSecurity (loadIsinOverrides (Some Samples.manualAmongReplacements))
     Samples.appleIsin (recordCurrency Batches.currencylessDividend) =
     (Resolved (Some {| sec_symbol := "GF_US0378331005"; sec_currency := "USD";
                        sec_name := "US0378331005" |}) MANUAL, [])).
Proof.
  split; [|split; [|split; [|split]]].
  - destruct (resolution_precedence (Some Samples.manualAmongReplacements)
                initial (DividendRow Samples.appleDividend)) as (H & _ & _);
      [evaluated|].
    destruct H as [H _]; [evaluated|]. exact H.
  - destruct (resolution_precedence (Some Samples.twoReplacements)
                initial (DividendRow Samples.appleDividend)) as (_ & H & _);
      [evaluated|].
    destruct (H ltac:(evaluated) "AAPL" ltac:(evaluated)) as [H' _]. exact H'.
  - destruct (resolution_precedence None initial (DividendRow Samples.appleDividend))
      as (_ & _ & H & _); [evaluated|].
    destruct H as [H _]; [evaluated..|]. exact H.
  - destruct (resolution_precedence (Some Batches.vodafoneByHand)
                initial Batches.vodafoneBuy) as (H & _ & _ & Hcur); [evaluated|].
    split; [etransitivity; [exact Hcur|evaluated]|].
    destruct H as [H _]; [evaluated|]. etransitivity; [exact H|evaluated].
  - destruct (resolution_precedence (Some Samples.manualAmongReplacements)
                initial Batches.currencylessDividend) as (H & _ & _ & Hcur);
      [evaluated|].
    split; [etransitivity; [exact Hcur|evaluated]|].
    destruct H as [H _]; [evaluated|]. etransitivity; [exact H|evaluated].
Defined.

(** A manual line between two replacement lines: the identifier is
    resolved by hand and nothing is sent. *)
Lemma manual_isin_never_queried_witness :
  let this := loadIsinOverrides (Some Samples.manualAmongReplacements) in
  getSymbolOverride this Samples.appleIsin = Some "AAPL" ∧
  isManualIsin this Samples.appleIsin = true ∧
  (∀ cur, resolveSecurity this Samples.appleIsin cur =
          (Resolved (Some (manualSecurity Samples.appleIsin cur)) MANUAL, [])) ∧
  (∀ st record, rec_isin record = Samples.appleIsin →
     asked (stateOf (processRecord this st record)) = asked st).
Proof.
  split; [evaluated|].
  apply (manual_isin_never_queried Samples.manualAmongReplacements Samples.appleIsin).
  vm_compute. right; left.
Defined.

(** The later of two replacement lines gives the key of the lookup. *)
Lemma later_line_wins_unless_manual_witness :
  getSymbolOverride (loadIsinOverrides (Some Samples.twoReplacements))
    Samples.appleIsin = Some "AAPL" ∧
  resolveSecurity (loadIsinOverrides (Some Samples.twoReplacements))
    Samples.appleIsin (Some "USD") =
    (Resolved (Some Exact.apple) YAHOO, [Samples.appleSymbolQuery]).
Proof.
  destruct (later_line_wins_unless_manual Samples.twoReplacements
              [(Samples.appleIsin, "APC.F")] [] Samples.appleIsin "AAPL" (Some "USD"))
    as (_ & H & _).
  - evaluated.
  - intros v Hin. by apply not_elem_of_nil in Hin.
  - destruct H as [Hkey Hres].
    + evaluated.
    + intros [[=]|Hin%not_elem_of_nil]%elem_of_cons. done.
    + split; [exact Hkey|]. rewrite Hres. evaluated.
Defined.

(** Last write wins, as the specification states it, fails on a manual
    line followed by a replacement line.  The later line asks for a lookup
    with the key AAPL; the identifier, which the load leaves both in the
    manual set and in the replacement map, is still resolved by hand,
    without any query. *)
Lemma manual_line_is_not_overwritten :
  overrideEntries Samples.manualThenReplacement =
    [(Samples.appleIsin, Samples.appleIsin); (Samples.appleIsin, "AAPL")] ∧
  resolveSecurity (loadIsinOverrides (Some Samples.manualThenReplacement))
    Samples.appleIsin (Some "USD") =
    (Resolved (Some (manualSecurity Samples.appleIsin (Some "USD"))) MANUAL, []) ∧
  resolveByLine Samples.appleIsin "AAPL" (Some "USD") =
    (Resolved (Some Exact.apple) YAHOO, [Samples.appleSymbolQuery]) ∧
  isManualIsin (loadIsinOverrides (Some Samples.manualThenReplacement))
    Samples.appleIsin = true ∧
  getSymbolOverride (loadIsinOverrides (Some Samples.manualThenReplacement))
    Samples.appleIsin = Some "AAPL" ∧
  ¬ lastWriteWins Samples.manualThenReplacement.
Proof.
  split_and!; [evaluated..|].
  intros H.
  specialize (H [(Samples.appleIsin, Samples.appleIsin)] [] Samples.appleIsin
                "AAPL" (Some "USD")).
  assert (resolveSecurity (loadIsinOverrides (Some Samples.manualThenReplacement))
            Samples.appleIsin (Some "USD") =
          resolveByLine Samples.appleIsin "AAPL" (Some "USD")) as Heq.
  { apply H; [evaluated| |].
    - exists Samples.appleIsin. by left.
    - intros v Hin. by apply not_elem_of_nil in Hin. }
  vm_compute in Heq. discriminate Heq.
Qed.


(** A dividend without a per-share price between two purchases: the run
    ends with the type error, and the purchase before it is not delivered. *)
Lemma missing_price_aborts_batch_witness :
  length (built Samples.afterAppleBuy) = 1 ∧
  processRecords noOverrides initial
    ([Samples.appleBuy] ++ DividendRow Samples.unpricedDividend :: [Samples.appleBuy]) =
    Abort NullMatchTypeError
      {| built := built Samples.afterAppleBuy;
         asked := asked Samples.afterAppleBuy ++ [Samples.appleQuery] |} ∧
  processFileContents noOverrides None
    (Some ([Samples.appleBuy] ++ DividendRow Samples.unpricedDividend :: [Samples.appleBuy])) =
    {| callbacks := [errorCallback NullMatchTypeError];
       queries := asked Samples.afterAppleBuy ++ [Samples.appleQuery] |}.
Proof.
  split; [evaluated|].
  apply (missing_price_aborts_batch noOverrides [Samples.appleBuy] [Samples.appleBuy]
           Samples.afterAppleBuy Samples.unpricedDividend Exact.apple YAHOO
           [Samples.appleQuery]);
    try evaluated.
  apply PerShareFacts.exec_None_iff. evaluated.
Defined.

(** A payment in lieu after the dividend it stands for: the matcher would
    find the dividend, and the payment is added behind it all the same. *)
Lemma payment_in_lieu_appends_witness :
  fst <$> findExactDividendMatch Samples.applePaymentInLieu "AAPL"
            (built Samples.afterAppleDividend) = Some 0 ∧
  processRecord noOverrides Samples.afterAppleDividend
    (DividendRow Samples.applePaymentInLieu) =
  Next {| built := built Samples.afterAppleDividend ++
            [ {| accountId := Some "my-account";
                 comment := div_description Samples.applePaymentInLieu;
                 fee := Some (Exact.Finite 0);
                 quantity := Some (Exact.Finite (12 # 5));
                 type := Some dividend;
                 unitPrice := Some (Exact.Finite 0);
                 currency := Some "USD";
                 dataSource := YAHOO;
                 date := "2023-01-05T00:00:00+00:00";
                 symbol := "AAPL" |} ];
          asked := asked Samples.afterAppleDividend ++ [Samples.appleQuery] |}.
Proof.
  split; [evaluated|].
  etransitivity;
    [apply (payment_in_lieu_appends noOverrides Samples.afterAppleDividend
              Samples.applePaymentInLieu Exact.apple YAHOO [Samples.appleQuery])
    |]; evaluated.
Defined.

(** A tax record on an empty list. *)
Lemma unmatched_tax_emits_dividend_witness :
  processRecord noOverrides initial (DividendRow Samples.appleTax) =
  Next {| built :=
            [ {| accountId := Some "my-account";
                 comment := div_description Samples.appleTax;
                 fee := Some (Exact.Finite (9 # 25));
                 quantity := Some (Exact.Finite 0);
                 type := Some dividend;
                 unitPrice := Some (Exact.Finite (6 # 25));
                 currency := Some "USD";
                 dataSource := YAHOO;
                 date := "2023-01-05T00:00:00+00:00";
                 symbol := "AAPL" |} ];
          asked := [Samples.appleQuery] |}.
Proof.
  etransitivity;
    [apply (unmatched_tax_emits_dividend noOverrides initial Samples.appleTax
              Exact.apple YAHOO [Samples.appleQuery] "0.24")
    |]; evaluated.
Defined.

(** A dividend of Vodafone and its tax, both in GBX, with the same symbol,
    date and first 20 characters of description: two activities. *)
Lemma gbx_records_never_merge_witness :
  symbol (unmergedActivity Samples.vodafoneDividend "0.0386" Exact.vodafone YAHOO) =
    symbol (unmergedActivity Samples.vodafoneTax "0.0386" Exact.vodafone YAHOO) ∧
  date (unmergedActivity Samples.vodafoneDividend "0.0386" Exact.vodafone YAHOO) =
    dayjsFormat (div_date Samples.vodafoneTax) ∧
  Js.substring0 20 (div_description Samples.vodafoneDividend) =
    Js.substring0 20 (div_description Samples.vodafoneTax) ∧
  processRecords noOverrides initial
    [DividendRow Samples.vodafoneDividend; DividendRow Samples.vodafoneTax] =
  Next {| built := [] ++
            [unmergedActivity Samples.vodafoneDividend "0.0386" Exact.vodafone YAHOO;
             unmergedActivity Samples.vodafoneTax "0.0386" Exact.vodafone YAHOO];
          asked := ([] ++ [Samples.vodafoneQuery]) ++ [Samples.vodafoneQuery] |}.
Proof.
  destruct (gbx_records_never_merge noOverrides [] initial
              Samples.vodafoneDividend Samples.vodafoneTax Exact.vodafone Exact.vodafone
              YAHOO YAHOO [Samples.vodafoneQuery] [Samples.vodafoneQuery]
              "0.0386" "0.0386") as (_ & _ & _ & _ & Hpair); [evaluated..|].
  split_and!; [evaluated..|].
  etransitivity; [exact Hpair|evaluated].
Defined.



(** ** The end-to-end scenarios of the specification *)

(** Scenario 1: a purchase. *)
Example scenario_buy :
  processFileContents noOverrides None (Some [Samples.appleBuy]) =
  {| callbacks :=
       [successCallback
          {| meta_date := newDate; meta_version := "v0";
             activities :=
               [ {| accountId := Some "my-account"; comment := "";
                    fee := Some (Exact.Finite 1);
                    quantity := Some (Exact.Finite 10);
                    type := Some buy;
                    unitPrice := Some (Exact.Finite 150);
                    currency := Some "USD"; dataSource := YAHOO;
                    date := "2023-01-05T00:00:00+00:00"; symbol := "AAPL" |} ] |}];
     queries := [Samples.appleQuery] |}.
Proof. evaluated. Qed.

(** Scenarios 2 and 3: a dividend, then its tax, which sets the fee of the
    activity of the dividend. *)
Example scenario_dividend_then_tax :
  processFileContents noOverrides None
    (Some [DividendRow Samples.plainDividend; DividendRow Samples.plainTax]) =
  {| callbacks :=
       [successCallback
          {| meta_date := newDate; meta_version := "v0";
             activities :=
               [ {| accountId := Some "my-account"; comment := "0.24 PER SHARE";
                    fee := Some (Exact.Finite (9 # 25));
                    quantity := Some (Exact.Finite 10);
                    type := Some dividend;
                    unitPrice := Some (Exact.Finite (6 # 25));
                    currency := Some "USD"; dataSource := YAHOO;
                    date := "2023-01-05T00:00:00+00:00"; symbol := "AAPL" |} ] |}];
     queries := [Samples.appleQuery; Samples.appleQuery] |}.
Proof. evaluated. Qed.

(** Scenario 4: an identifier listed as manual. *)
Example scenario_manual :
  processFileContents (loadIsinOverrides (Some "US0378331005=US0378331005")) None
    (Some [Samples.appleBuy]) =
  {| callbacks :=
       [successCallback
          {| meta_date := newDate; meta_version := "v0";
             activities :=
               [ {| accountId := Some "my-account"; comment := "";
                    fee := Some (Exact.Finite 1);
                    quantity := Some (Exact.Finite 10);
                    type := Some buy;
                    unitPrice := Some (Exact.Finite 150);
                    currency := Some "USD"; dataSource := MANUAL;
                    date := "2023-01-05T00:00:00+00:00";
                    symbol := "GF_US0378331005" |} ] |}];
     queries := [] |}.
Proof. evaluated. Qed.

(** Scenario 5: a row without identifier is dropped; scenario 6: a row
    whose identifier the service does not know is skipped, and the rows
    after it are processed. *)
Example scenario_dropped_and_skipped :
  processFileContents noOverrides None
    (Some [tradeRecordOfFields "BUY" "20230105" "" "1" "1.00" "1.00" "USD" "0" "USD";
           tradeRecordOfFields "BUY" "20230105" "DE0000000000" "1" "1.00" "1.00" "EUR" "0" "EUR";
           Samples.appleBuy]) =
  {| callbacks :=
       [successCallback
          {| meta_date := newDate; meta_version := "v0";
             activities := built Samples.afterAppleBuy |}];
     queries := [isinQuery "DE0000000000" (Some "EUR"); Samples.appleQuery] |}.
Proof. evaluated. Qed.

(** * Further properties *)

(** ** Splitting and trimming *)

(** X1: the rows below the header never influence the layout.  For a
    header line without line feed, whatever follows the first line feed,
    [processHeaders] answers as on the header alone; with the comma as
    delimiter it answers the trade layout exactly when the header holds
    six commas or more, commas inside quotes included. *)
Theorem header_alone_decides_layout (header body splitChar : string) :
  Js.occurrences "010" header = 0 →
  processHeaders (header +:+ Js.LF +:+ body) splitChar =
    processHeaders header splitChar ∧
  processHeaders (header +:+ Js.LF +:+ body) "," =
    if 6 <=? Js.occurrences "," header then tradeColumns else dividendColumns.
Proof.
  intros Hh. unfold processHeaders.
  rewrite (firstLine_app header body Hh), (firstLine_alone header Hh).
  split; [done|]. by rewrite split_char_length.
Qed.

Lemma trimStart_length (s : string) :
  String.length (Js.trimStart s) ≤ String.length s.
Proof.
  induction s as [|c s IH]; [done|]. simpl.
  destruct (Js.isWhiteSpace c); simpl; lia.
Qed.

Lemma trimEnd_length (s : string) :
  String.length (Js.trimEnd s) ≤ String.length s.
Proof.
  induction s as [|c s IH]; [done|]. simpl.
  destruct (Js.trimEnd s); [destruct (Js.isWhiteSpace c)|]; simpl in *; lia.
Qed.

(** A trimmed text starts with a code unit that is not white space, and
    [trimEnd] leaves it as it is. *)
Lemma trimmed_head (s : string) :
  Text.trimmed s →
  ∃ c s', s = String c s' ∧ Js.isWhiteSpace c = false ∧ Js.trimEnd s = s.
Proof.
  intros [Hne Htrim]. destruct s as [|c s']; [done|].
  exists c, s'. unfold Js.trim in Htrim. simpl in Htrim.
  destruct (Js.isWhiteSpace c) eqn:Hc; [|done].
  exfalso.
  pose proof (trimEnd_length (Js.trimStart s')) as H1.
  pose proof (trimStart_length s') as H2.
  rewrite Htrim in H1. simpl in H1. lia.
Qed.

Lemma trimStart_white (w s : string) :
  Text.allWhiteSpace w = true → Js.trimStart (w +:+ s) = Js.trimStart s.
Proof.
  induction w as [|c w IH]; [done|]. cbn [Text.allWhiteSpace].
  intros [Hc Hw]%andb_true_iff. rewrite app_cons. cbn [Js.trimStart].
  rewrite Hc. by apply IH.
Qed.

Lemma trimEnd_white (w : string) :
  Text.allWhiteSpace w = true → Js.trimEnd w = "".
Proof.
  induction w as [|c w IH]; [done|]. simpl.
  intros [Hc Hw]%andb_true_iff. by rewrite IH, Hc.
Qed.

Lemma trimEnd_app_white (x w : string) :
  Text.allWhiteSpace w = true → Js.trimEnd (x +:+ w) = Js.trimEnd x.
Proof.
  intros Hw. induction x as [|a x IH].
  - change ("" +:+ w) with w. by rewrite trimEnd_white.
  - rewrite app_cons. simpl. by rewrite IH.
Qed.

Lemma app_truthy_r (x v : string) : Js.truthy v = true → Js.truthy (x +:+ v) = true.
Proof. intros Hv. destruct x; [done|by rewrite app_cons]. Qed.

Lemma trimEnd_app_trimmed (x v : string) :
  Js.truthy v = true → Js.trimEnd v = v → Js.trimEnd (x +:+ v) = x +:+ v.
Proof.
  intros Hne Hv. induction x as [|a x IH]; [done|].
  rewrite app_cons. simpl. rewrite IH.
  pose proof (app_truthy_r x v Hne) as Hxv.
  by destruct (x +:+ v).
Qed.

(** Trimming a trimmed text with white space on both sides gives the text
    back. *)
Lemma trim_padded (w1 s w2 : string) :
  Text.allWhiteSpace w1 = true → Text.allWhiteSpace w2 = true →
  Text.trimmed s → Js.trim (w1 +:+ s +:+ w2) = s.
Proof.
  intros Hw1 Hw2 Hs. destruct (trimmed_head s Hs) as (c & s' & -> & Hc & Hend).
  unfold Js.trim. rewrite trimStart_white by done.
  rewrite app_cons. simpl. rewrite Hc. rewrite <- app_cons.
  by rewrite trimEnd_app_white.
Qed.

Lemma white_no_equals (w : string) :
  Text.allWhiteSpace w = true → Js.occurrences "=" w = 0.
Proof.
  induction w as [|c w IH]; [done|]. simpl.
  intros [Hc Hw]%andb_true_iff. rewrite IH by done.
  destruct (decide ("="%char = c)) as [<-|]; [done|done].
Qed.

(** The trimmed text of an override line. *)
Lemma trim_overrideLine (w1 isin w2 w3 value w4 : string) :
  Text.allWhiteSpace w1 = true → Text.allWhiteSpace w4 = true →
  Text.trimmed isin → Text.trimmed value →
  Js.trim (Text.overrideLine w1 isin w2 w3 value w4) =
  (isin +:+ w2) +:+ String "=" (w3 +:+ value).
Proof.
  intros Hw1 Hw4 Hisin Hvalue. unfold Text.overrideLine.
  destruct (trimmed_head isin Hisin) as (c & isin' & -> & Hc & _).
  destruct (trimmed_head value Hvalue) as (d & value' & Hv & Hd & Hend).
  unfold Js.trim. rewrite trimStart_white by done.
  rewrite app_cons. simpl. rewrite Hc. rewrite <- app_cons.
  replace (String c isin' +:+ w2 +:+ "=" +:+ w3 +:+ value +:+ w4)
    with ((String c isin' +:+ w2 +:+ "=" +:+ w3 +:+ value) +:+ w4)
    by by rewrite !app_assoc_string.
  rewrite trimEnd_app_white by done.
  replace (String c isin' +:+ w2 +:+ "=" +:+ w3 +:+ value)
    with ((String c isin' +:+ w2 +:+ "=" +:+ w3) +:+ value)
    by by rewrite !app_assoc_string.
  rewrite trimEnd_app_trimmed by (done || apply Hvalue).
  by rewrite !app_assoc_string.
Qed.

Section Loader.

(** X2: a line of the override file with white space around the
    identifier, the [=] and the value is read as the pair of the two,
    trimmed: when identifier and value are trimmed texts without [=] and
    the identifier does not start with [#], a different value becomes the
    replacement key of the identifier (and is what [getSymbolOverride]
    then returns), an equal value puts the identifier in the manual set,
    and the other table stays as it was. *)
Theorem override_line_round_trip
    (this : IbkrConverter) (w1 isin w2 w3 value w4 : string) :
  Text.allWhiteSpace w1 = true → Text.allWhiteSpace w2 = true →
  Text.allWhiteSpace w3 = true → Text.allWhiteSpace w4 = true →
  Text.trimmed isin → Text.trimmed value →
  Js.occurrences "=" isin = 0 → Js.occurrences "=" value = 0 →
  Js.startsWith "#" isin = false →
  let loaded := loadLine this (Text.overrideLine w1 isin w2 w3 value w4) in
  (value ≠ isin →
     getSymbolOverride loaded isin = Some value ∧
     isinOverrides loaded = <[ isin := value ]> (isinOverrides this) ∧
     manualIsins loaded = manualIsins this) ∧
  (value = isin →
     isManualIsin loaded isin = true ∧
     manualIsins loaded = {[ isin ]} ∪ manualIsins this ∧
     isinOverrides loaded = isinOverrides this).
Proof.
  intros Hw1 Hw2 Hw3 Hw4 Hisin Hvalue Hei Hev Hhash loaded.
  assert (loaded = applyEntry this (isin, value)) as ->.
  { unfold loaded. rewrite loadLine_entry. unfold overrideEntry.
    rewrite trim_overrideLine by done.
    destruct (trimmed_head isin Hisin) as (c & isin' & Hi & Hc & _).
    assert (Js.startsWith "#" ((isin +:+ w2) +:+ String "=" (w3 +:+ value)) = false)
      as ->.
    { rewrite Hi in *. rewrite !app_cons. unfold Js.startsWith in *.
      cbn [String.prefix] in *.
      destruct (ascii_dec "#" c); [by rewrite prefix_empty in Hhash|done]. }
    assert (Js.truthy ((isin +:+ w2) +:+ String "=" (w3 +:+ value)) = true) as ->
      by (rewrite Hi; by rewrite !app_cons).
    rewrite split_char_app
      by (rewrite occurrences_app, Hei, white_no_equals by done; done).
    rewrite split_char_none
      by (rewrite occurrences_app, Hev, white_no_equals by done; done).
    replace (isin +:+ w2) with ("" +:+ isin +:+ w2) by done.
    replace (w3 +:+ value) with (w3 +:+ value +:+ "") by by rewrite app_nil_end.
    rewrite !trim_padded by done.
    destruct Hisin as [-> _]. destruct Hvalue as [-> _]. done. }
  unfold applyEntry, getSymbolOverride, isManualIsin. simpl. split.
  - intros Hne. rewrite decide_False by done. simpl.
    by rewrite lookup_insert_eq.
  - intros ->. rewrite decide_True by done. simpl.
    split_and!; [|done..]. apply bool_decide_eq_true. set_solver.
Qed.

(** X3: the loader skips, without any change of the tables, a line that
    is blank, a line whose trimmed text starts with [#], and a line whose
    trimmed text does not hold exactly one [=]. *)
Theorem malformed_override_line_is_skipped (this : IbkrConverter) (line : string) :
  Text.allWhiteSpace line = true ∨
  Js.startsWith "#" (Js.trim line) = true ∨
  Js.occurrences "=" (Js.trim line) ≠ 1 →
  loadLine this line = this.
Proof.
  intros H. unfold loadLine.
  destruct (Js.truthy (Js.trim line)) eqn:Htruthy; [|done]. cbn [negb orb].
  destruct (Js.startsWith "#" (Js.trim line)) eqn:Hhash; [done|].
  destruct H as [Hws|[?|Hocc]]; [|done|].
  - unfold Js.trim in Htruthy.
    replace line with (line +:+ "") in Htruthy by apply app_nil_end.
    rewrite trimStart_white in Htruthy by done. done.
  - pose proof (split_char_length "=" (Js.trim line)) as Hlen.
    destruct (Js.split "=" (Js.trim line)) as [|p0 [|p1 [|p2 ps]]]; try done.
    cbn [length] in Hlen. congruence.
Qed.

(** X4: in the tables that [loadIsinOverrides] builds from any file, a
    replacement key is never empty and never equal to its identifier, and
    no identifier, manual or replaced, is empty: a record without
    identifier has no override. *)
Theorem loaded_tables_are_well_formed (file : option string) (isin : string) :
  (∀ key, getSymbolOverride (loadIsinOverrides file) isin = Some key →
     key ≠ isin ∧ Js.truthy key = true ∧ Js.truthy isin = true) ∧
  (isManualIsin (loadIsinOverrides file) isin = true → Js.truthy isin = true) ∧
  getSymbolOverride (loadIsinOverrides file) "" = None ∧
  isManualIsin (loadIsinOverrides file) "" = false.
Proof.
  assert (∀ i key, getSymbolOverride (loadIsinOverrides file) i = Some key →
            key ≠ i ∧ Js.truthy key = true ∧ Js.truthy i = true) as Hkey.
  { intros i key. destruct file as [content|]; [|done].
    unfold getSymbolOverride. rewrite loadIsinOverrides_entries, isinOverrides_foldl.
    destruct (lastReplacement i (overrideEntries content)) as [w|] eqn:E; [|done].
    intros [= ->]. apply lastReplacement_elem in E as [Hin Hne].
    apply overrideEntries_truthy in Hin as [? ?]. done. }
  assert (∀ i, isManualIsin (loadIsinOverrides file) i = true → Js.truthy i = true)
    as Hman.
  { intros i. destruct file as [content|]; [|done].
    unfold isManualIsin. rewrite bool_decide_eq_true, manualIsins_loaded.
    intros Hin. by apply overrideEntries_truthy in Hin as [? _]. }
  split_and!; [apply Hkey|apply Hman| |].
  - destruct (getSymbolOverride (loadIsinOverrides file) "") as [key|] eqn:E; [|done].
    by apply Hkey in E as (_ & _ & ?).
  - destruct (isManualIsin (loadIsinOverrides file) "") eqn:E; [|done].
    by apply Hman in E.
Qed.

End Loader.

(** ** The loop as a whole *)

Section LoopFacts.

Context {num lookupError : Type} {rt : Runtime num} {svc : SecurityService lookupError}.

(** X5: records without identifier are transparent: the loop ends in the
    same state, with the same error if any, as on the batch from which
    they are removed, wherever they stand. *)
Theorem ignored_records_are_transparent
    (this : IbkrConverter) (st : Progress) (records : list IbkrRecord) :
  processRecords this st records = processRecords this st (notIgnored records).
Proof.
  unfold notIgnored. revert st.
  induction records as [|r records IH]; intros st; [done|].
  rewrite filter_cons. destruct (isIgnoredRecord r) eqn:Hr.
  - rewrite decide_False by done. simpl. unfold processRecord. rewrite Hr. apply IH.
  - rewrite decide_True by done. simpl.
    destruct (processRecord this st r); [apply IH|done].
Qed.

Lemma processRecords_all_ignored this st (records : list IbkrRecord) :
  Forall (λ r, isIgnoredRecord r = true) records →
  processRecords this st records = Next st.
Proof.
  intros Hall. induction Hall as [|r records Hr _ IH]; [done|].
  simpl. unfold processRecord. by rewrite Hr.
Qed.

(** X6: a batch that is not empty and holds only records without
    identifier is no error: the success callback receives an export with
    no activity, and no query is sent. *)
Theorem batch_of_ignored_records_succeeds
    (this : IbkrConverter) (records : list IbkrRecord) :
  records ≠ [] →
  Forall (λ r, isIgnoredRecord r = true) records →
  processFileContents this None (Some records) =
  {| callbacks := [successCallback
       {| meta_date := newDate; meta_version := "v0"; activities := [] |}];
     queries := [] |}.
Proof.
  intros Hne Hall.
  pose proof (processRecords_all_ignored this initial records Hall) as Hloop.
  unfold processFileContents. destruct records as [|r records]; [done|].
  by rewrite Hloop.
Qed.

Lemma classifyRecord_outcome st1 st2 record cur security source :
  built st1 = built st2 →
  outcome (lookupError := lookupError) (classifyRecord st1 record cur security source) =
  outcome (classifyRecord st2 record cur security source).
Proof.
  intros Hb. unfold classifyRecord, pushActivity. rewrite Hb.
  repeat (case_match; simpl; rewrite ?Hb; try done).
Qed.

Lemma processRecord_outcome this st1 st2 record :
  built st1 = built st2 →
  outcome (processRecord this st1 record) = outcome (processRecord this st2 record).
Proof.
  intros Hb. unfold processRecord.
  destruct (isIgnoredRecord record); [simpl; by rewrite Hb|].
  destruct (resolveSecurity _ _ _) as [[[security|] source|e] sent]; simpl;
    [by apply classifyRecord_outcome|by rewrite Hb..].
Qed.

Lemma outcome_Next s1 s2 :
  outcome (lookupError := lookupError) (num := num) s1 = outcome s2 →
  (∃ st1 st2, s1 = Next st1 ∧ s2 = Next st2 ∧ built st1 = built st2) ∨
  (∃ e st1 st2, s1 = Abort e st1 ∧ s2 = Abort e st2 ∧ built st1 = built st2).
Proof.
  destruct s1 as [st1|e1 st1], s2 as [st2|e2 st2]; simpl; intros [= ]; subst.
  - left. by exists st1, st2.
  - right. by exists e2, st1, st2.
Qed.

(** The activities and the error of the loop depend on the activities of
    the state it starts from, not on the queries sent before. *)
Lemma processRecords_outcome this st1 st2 records :
  built st1 = built st2 →
  outcome (processRecords this st1 records) = outcome (processRecords this st2 records).
Proof.
  revert st1 st2. induction records as [|r records IH]; intros st1 st2 Hb; simpl.
  - by rewrite Hb.
  - destruct (outcome_Next _ _ (processRecord_outcome this st1 st2 r Hb))
      as [(s1 & s2 & -> & -> & Hb')|(e & s1 & s2 & -> & -> & Hb')].
    + by apply IH.
    + simpl. by rewrite Hb'.
Qed.

Lemma callbacks_of_outcome this (rows : list IbkrRecord) :
  rows ≠ [] →
  callbacks (processFileContents this None (Some rows)) =
  match outcome (processRecords this initial rows) with
  | (None, acts) =>
      [successCallback {| meta_date := newDate; meta_version := "v0";
                          activities := acts |}]
  | (Some error, _) => [errorCallback error]
  end.
Proof.
  intros Hne. unfold processFileContents. destruct rows as [|r rows]; [done|].
  by destruct (processRecords this initial (r :: rows)).
Qed.

(** X7: a record for which the external lookup finds nothing is
    transparent for what the caller receives: the loop ends with the same
    activities and the same error, if any, as on the batch without the
    record, wherever the record stands, and the run invokes the same
    callback with the same argument. *)
Theorem unresolved_record_is_transparent
    (this : IbkrConverter) (st : Progress) (before after : list IbkrRecord)
    (record : IbkrRecord) (source : DataSource) (sent : list Query) :
  isIgnoredRecord record = false →
  resolveSecurity this (rec_isin record) (recordCurrency record) =
    (Resolved None source, sent) →
  outcome (processRecords this st (before ++ record :: after)) =
    outcome (processRecords this st (before ++ after)) ∧
  (before ++ after ≠ [] →
   callbacks (processFileContents this None (Some (before ++ record :: after))) =
   callbacks (processFileContents this None (Some (before ++ after)))).
Proof.
  intros Hign Hres.
  assert (∀ st0, outcome (processRecords this st0 (before ++ record :: after)) =
                 outcome (processRecords this st0 (before ++ after))) as Hout.
  { intros st0. rewrite !processRecords_app.
    destruct (processRecords this st0 before) as [st1|e st1]; [|done].
    simpl. unfold processRecord. rewrite Hign, Hres.
    by apply processRecords_outcome. }
  split; [apply Hout|]. intros Hne.
  rewrite !callbacks_of_outcome by (done || by destruct before).
  by rewrite Hout.
Qed.

Lemma classifyRecord_identity st record cur security source :
  ∃ added,
    identity <$> built (stateOf (lookupError := lookupError)
                          (classifyRecord st record cur security source)) =
      (identity <$> built st) ++ added ∧
    length added ≤ 1.
Proof.
  assert (∀ f : GhostfolioActivity → GhostfolioActivity,
            (∀ a, identity (f a) = identity a) →
            ∀ i, identity <$> alter f i (built st) = identity <$> built st) as Halter.
  { intros f Hf i.
    rewrite (list_fmap_alter identity f id) by (apply Forall_forall; intros; apply Hf).
    by apply list_alter_id. }
  unfold classifyRecord, pushActivity.
  repeat case_match; simpl;
    first [ exists []; rewrite app_nil_r; split; [by rewrite ?Halter|simpl; lia]
          | eexists [_]; split; [by rewrite fmap_app|simpl; lia] ].
Qed.

Lemma processRecord_identity this st record :
  ∃ added,
    identity <$> built (stateOf (processRecord this st record)) =
      (identity <$> built st) ++ added ∧
    length added ≤ (if isIgnoredRecord record then 0 else 1).
Proof.
  unfold processRecord. destruct (isIgnoredRecord record).
  - exists []. by rewrite app_nil_r.
  - destruct (resolveSecurity _ _ _) as [[[security|] source|e] sent]; simpl.
    + apply (classifyRecord_identity {| built := built st; asked := asked st ++ sent |}).
    + exists []. rewrite app_nil_r. split; [done|simpl; lia].
    + exists []. rewrite app_nil_r. split; [done|simpl; lia].
Qed.

(** X8: the list of activities only grows at its end, by at most one
    activity per record that is not ignored, and a merge never changes
    which event an activity stands for: account, order type, currency,
    data source, date and symbol of every activity built so far stay as
    they are, in the same order. *)
Theorem activities_keep_their_identity
    (this : IbkrConverter) (st : Progress) (records : list IbkrRecord) :
  ∃ added,
    identity <$> built (stateOf (processRecords this st records)) =
      (identity <$> built st) ++ added ∧
    length added ≤ length (notIgnored records).
Proof.
  unfold notIgnored. revert st.
  induction records as [|r records IH]; intros st.
  - exists []. by rewrite app_nil_r.
  - simpl. destruct (processRecord_identity this st r) as (a1 & Ha1 & Hl1).
    rewrite filter_cons.
    destruct (processRecord this st r) as [st1|e st1] eqn:Hstep; simpl in Ha1.
    + destruct (IH st1) as (a2 & Ha2 & Hl2).
      exists (a1 ++ a2). rewrite Ha2, Ha1, app_assoc. split; [done|].
      rewrite length_app. destruct (isIgnoredRecord r).
      * rewrite decide_False by done. lia.
      * rewrite decide_True by done. simpl. lia.
    + exists a1. split; [done|]. destruct (isIgnoredRecord r).
      * lia.
      * rewrite decide_True by done. simpl. lia.
Qed.



Lemma awaitSecurity_answered (q : Query) :
  match awaitSecurity q with
  | Resolved _ _ => answered q
  | Failed e => getSecurity q = Raised e
  end.
Proof.
  unfold awaitSecurity, answered. destruct (getSecurity q) eqn:E; try done.
Qed.

Lemma classifyRecord_abort st (r : @IbkrRecord num) cur security source e st' :
  classifyRecord (lookupError := lookupError) st r cur security source = Abort e st' →
  e = NullMatchTypeError.
Proof.
  unfold classifyRecord, pushActivity. intros H.
  repeat case_match; by simplify_eq.
Qed.

Lemma resolveSecurity_answered this isin cur :
  match resolveSecurity this isin cur with
  | (Failed e, sent) => ∃ q, sent = [q] ∧ getSecurity q = Raised e
  | (Resolved _ _, sent) => Forall answered sent
  end.
Proof.
  assert (∀ q, match awaitSecurity q with
               | Failed e => ∃ q0, [q] = [q0] ∧ getSecurity q0 = Raised e
               | Resolved _ _ => Forall answered [q]
               end) as Hq.
  { intros q. pose proof (awaitSecurity_answered q) as H.
    destruct (awaitSecurity q); [by apply Forall_singleton|by exists q]. }
  unfold resolveSecurity. destruct (isManualIsin this isin); [constructor|].
  destruct (getSymbolOverride this isin) as [key|];
    [destruct (Js.truthy key)|]; apply Hq.
Qed.

Lemma resolveSecurity_source this isin cur security source sent :
  resolveSecurity this isin cur = (Resolved (Some security) source, sent) →
  if isManualIsin this isin
  then source = MANUAL ∧ sec_symbol security = "GF_" +:+ isin
  else source = YAHOO.
Proof.
  assert (∀ q, awaitSecurity q = Resolved (Some security) source → source = YAHOO) as Hq.
  { intros q. unfold awaitSecurity. destruct (getSecurity q); congruence. }
  unfold resolveSecurity. destruct (isManualIsin this isin).
  { intros [= <- <- _]. done. }
  destruct (getSymbolOverride this isin) as [key|];
    [destruct (Js.truthy key)|]; intros [= H _]; eauto.
Qed.

Lemma processRecord_answered this st (r : @IbkrRecord num) :
  Forall answered (asked st) →
  match processRecord this st r with
  | Next st' => Forall answered (asked st')
  | Abort (LookupFailure e) st' =>
      ∃ q, asked st' = asked st ++ [q] ∧ getSecurity q = Raised e
  | Abort NullMatchTypeError st' => Forall answered (asked st')
  | Abort (ParsingError _) _ => False
  end.
Proof.
  intros Hst. unfold processRecord. destruct (isIgnoredRecord r); [done|].
  pose proof (resolveSecurity_answered this (rec_isin r) (recordCurrency r)) as Hres.
  destruct (resolveSecurity _ _ _) as [[[security|] source|e] sent]; simpl.
  - pose proof (classifyRecord_asked (lookupError := lookupError)
                  {| built := built st; asked := asked st ++ sent |}
                  r (recordCurrency r) security source) as Hasked.
    destruct (classifyRecord _ _ _ _ _) as [st1|e st1] eqn:Hstep; simpl in Hasked.
    + rewrite Hasked. by apply Forall_app.
    + apply classifyRecord_abort in Hstep as ->. rewrite Hasked. by apply Forall_app.
  - by apply Forall_app.
  - destruct Hres as (q & -> & Hq). by exists q.
Qed.

Lemma processRecords_answered this st (records : list (@IbkrRecord num)) :
  Forall answered (asked st) →
  match processRecords this st records with
  | Next st' => Forall answered (asked st')
  | Abort (LookupFailure e) st' =>
      ∃ qs q, asked st' = qs ++ [q] ∧ Forall answered qs ∧ getSecurity q = Raised e
  | Abort NullMatchTypeError st' => Forall answered (asked st')
  | Abort (ParsingError _) _ => False
  end.
Proof.
  revert st. induction records as [|r records IH]; intros st Hst; simpl; [done|].
  pose proof (processRecord_answered this st r Hst) as Hstep.
  destruct (processRecord this st r) as [st1|[m|e|] st1]; try done.
  - by apply IH.
  - destruct Hstep as (q & -> & Hq). by exists (asked st), q.
Qed.

(** X10: every error of a run has its cause in the run.  A lookup error
    that reaches the error callback was raised by the last query sent,
    and no query before it raised; after a success, and after the type
    error of a missing price, no query sent has raised; a parsing error
    is reported before any query, exactly when the parser reported an
    error or no record. *)
Theorem run_errors_have_their_cause
    (this : IbkrConverter) (err : option string)
    (records : option (list IbkrRecord)) :
  let run := processFileContents this err records in
  (∀ e, callbacks run = [errorCallback (LookupFailure e)] →
     ∃ qs q, queries run = qs ++ [q] ∧ Forall answered qs ∧
             getSecurity q = Raised e) ∧
  (∀ result, callbacks run = [successCallback result] →
     Forall answered (queries run) ∧ err = None) ∧
  (callbacks run = [errorCallback NullMatchTypeError] →
     Forall answered (queries run) ∧ err = None) ∧
  (∀ message, callbacks run = [errorCallback (ParsingError message)] →
     queries run = [] ∧
     (err ≠ None ∨ records = None ∨ records = Some [])).
Proof.
  intros run. unfold run, processFileContents.
  destruct err as [m|].
  { unfold parsingError. split_and!; try by intros; simplify_eq/=.
    intros message _. split; [done|by left]. }
  destruct records as [[|r rows]|].
  1,3: unfold parsingError; split_and!; try by intros; simplify_eq/=.
  1,2: intros message _; split; [done|right; by auto].
  pose proof (processRecords_answered this initial (r :: rows)) as Hloop.
  specialize (Hloop ltac:(constructor)).
  destruct (processRecords this initial (r :: rows)) as [st|[m|e|] st]; simpl.
  - split_and!; intros; by simplify_eq/=.
  - done.
  - split_and!; intros; by simplify_eq/=.
  - split_and!; intros; by simplify_eq/=.
Qed.

Lemma classifyRecord_madeFrom this (all : list (@IbkrRecord num)) st
    (r : @IbkrRecord num) security source :
  isIgnoredRecord r = false →
  r ∈ all →
  (if isManualIsin this (rec_isin r)
   then source = MANUAL ∧ sec_symbol security = "GF_" +:+ rec_isin r
   else source = YAHOO) →
  Forall (λ a, ∃ r0, r0 ∈ all ∧ madeFrom this r0 a) (built st) →
  Forall (λ a, ∃ r0, r0 ∈ all ∧ madeFrom this r0 a)
    (built (stateOf (lookupError := lookupError)
              (classifyRecord st r (recordCurrency r) security source))).
Proof.
  intros Hign Hin Hsrc Hst.
  assert (∀ f : @GhostfolioActivity num → @GhostfolioActivity num,
            (∀ a, identity (f a) = identity a) →
            ∀ i, Forall (λ a, ∃ r0, r0 ∈ all ∧ madeFrom this r0 a)
                   (alter f i (built st))) as Halter.
  { intros f Hf i. apply Forall_alter; [done|].
    intros a _ (r0 & Hr0 & Hm). exists r0. split; [done|].
    specialize (Hf a). unfold identity in Hf. simplify_eq.
    unfold madeFrom in *. by repeat match goal with H : _ = _ |- _ => rewrite H end. }
  assert (∀ c fees qty ty price,
            Forall (λ a, ∃ r0, r0 ∈ all ∧ madeFrom this r0 a)
              (built st ++ [newActivity c fees qty ty price (recordCurrency r) source
                              (dayjsParsedFormat (rec_date r)) (sec_symbol security)]))
    as Hpush.
  { intros. apply Forall_app. split; [done|]. apply Forall_singleton.
    exists r. split; [done|]. unfold madeFrom, newActivity. simpl.
    by split_and!. }
  unfold classifyRecord, pushActivity.
  repeat case_match; simpl; first [done | apply Hpush | by apply Halter].
Qed.

Lemma processRecord_madeFrom this (all : list (@IbkrRecord num)) st
    (r : @IbkrRecord num) :
  r ∈ all →
  Forall (λ a, ∃ r0, r0 ∈ all ∧ madeFrom this r0 a) (built st) →
  Forall (λ a, ∃ r0, r0 ∈ all ∧ madeFrom this r0 a)
    (built (stateOf (processRecord this st r))).
Proof.
  intros Hin Hst. unfold processRecord.
  destruct (isIgnoredRecord r) eqn:Hign; [done|].
  pose proof (resolveSecurity_source this (rec_isin r) (recordCurrency r)) as Hsrc.
  destruct (resolveSecurity _ _ _) as [[[security|] source|e] sent]; simpl; try done.
  apply (classifyRecord_madeFrom this all
           {| built := built st; asked := asked st ++ sent |}); try done.
  by apply (Hsrc security source sent).
Qed.

(** X11: every activity that the loop builds comes from a record of the
    batch that is not ignored, and keeps what it got from that record
    through every later merge: the account of the environment, the
    currency of the record (never the raw code GBX), its date, and the
    source of its resolution, MANUAL with the symbol [GF_<isin>] for a
    manual identifier and YAHOO otherwise. *)
Theorem activities_come_from_records
    (this : IbkrConverter) (records : list (@IbkrRecord num)) :
  Forall (λ a, currency a ≠ Some "GBX" ∧
               ∃ r, r ∈ records ∧ madeFrom this r a)
    (built (stateOf (processRecords this initial records))).
Proof.
  assert (∀ (all rs : list (@IbkrRecord num)) st,
            (∀ r, r ∈ rs → r ∈ all) →
            Forall (λ a, ∃ r0, r0 ∈ all ∧ madeFrom this r0 a) (built st) →
            Forall (λ a, ∃ r0, r0 ∈ all ∧ madeFrom this r0 a)
              (built (stateOf (processRecords this st rs)))) as Hloop.
  { intros all rs. induction rs as [|r rs IH]; intros st Hsub Hst; [done|].
    simpl.
    pose proof (processRecord_madeFrom this all st r (Hsub r ltac:(by left)) Hst) as Hstep.
    destruct (processRecord this st r) as [st1|e st1]; [|done].
    apply IH; [|done]. intros r0 Hr0. apply Hsub. by right. }
  specialize (Hloop records records initial ltac:(done) ltac:(constructor)).
  eapply Forall_impl; [exact Hloop|].
  intros a (r & Hr & Hm). split; [|by exists r].
  destruct Hm as (_ & _ & -> & _). apply recordCurrency_not_GBX.
Qed.

End LoopFacts.

Section ActivityFacts.

Context {num lookupError : Type} {rt : Runtime num} {svc : SecurityService lookupError}.

Lemma processRecord_plain this st (r : @IbkrRecord num) :
  asDividendRecord r = None →
  match processRecord this st r with
  | Next st' => built st' = built st ++ option_list (plainActivity this r)
  | Abort error st' => (∃ e, error = LookupFailure e) ∧ built st' = built st
  end.
Proof.
  intros Hplain. unfold processRecord, plainActivity.
  destruct (isIgnoredRecord r); [by rewrite app_nil_r|].
  destruct (resolveSecurity _ _ _) as [[[security|] source|e] sent]; simpl.
  - unfold classifyRecord. by rewrite Hplain.
  - by rewrite app_nil_r.
  - by eauto.
Qed.

(** X12: a batch without dividends is converted record by record.  When
    no record of the batch has the dividend view (trades, and records of
    the dividend layout whose currency is empty), the loop never merges
    and never throws the type error: if it ends, the activities added are
    those of the records in order, one for each that is not ignored and
    is resolved, with an empty comment; if it is left, the error is that
    of the lookup and the activities added are those of the records
    before it. *)
Theorem plain_batch_is_converted_row_by_row
    (this : IbkrConverter) (st : Progress) (records : list (@IbkrRecord num)) :
  Forall (λ r, asDividendRecord r = None) records →
  match processRecords this st records with
  | Next st' => built st' = built st ++ omap (plainActivity this) records
  | Abort error st' =>
      (∃ e, error = LookupFailure e) ∧
      ∃ before record after,
        records = before ++ record :: after ∧
        built st' = built st ++ omap (plainActivity this) before
  end.
Proof.
  intros Hall. revert st.
  induction Hall as [|r records Hr _ IH]; intros st.
  - simpl. by rewrite app_nil_r.
  - cbn [processRecords]. pose proof (processRecord_plain this st r Hr) as Hstep.
    destruct (processRecord this st r) as [st1|error st1].
    + specialize (IH st1).
      assert (∀ l, built st1 ++ omap (plainActivity this) l =
                   built st ++ omap (plainActivity this) (r :: l)) as Hcons.
      { intros l. rewrite Hstep. cbn [omap list_omap].
        destruct (plainActivity this r); simpl; [by rewrite <- app_assoc|].
        by rewrite app_nil_r. }
      destruct (processRecords this st1 records) as [st2|error st2].
      * by rewrite IH, Hcons.
      * destruct IH as (He & before & record & after & -> & Hb).
        split; [done|]. exists (r :: before), record, after.
        split; [done|]. by rewrite Hb, Hcons.
    + destruct Hstep as [He Hb]. split; [done|].
      exists [], r, records. split; [done|]. by rewrite Hb, app_nil_r.
Qed.

Lemma exec_truthy s m : PerShare.exec s = Some m → Js.truthy s = true.
Proof. by destruct s. Qed.

Lemma substring0_truthy n s :
  Js.truthy s = true → Js.truthy (Js.substring0 (S n) s) = true.
Proof. by destruct s. Qed.

Lemma classifyRecord_matched st (d : @IbkrDividendRecord num) matched security
    source cur i existing :
  Js.truthy (div_currency d) = true →
  Js.includes "in lieu of" (toLocaleLowerCase (div_description d)) = false →
  PerShare.exec (div_description d) = Some matched →
  findExactDividendMatch d (sec_symbol security) (built st) = Some (i, existing) →
  classifyRecord (lookupError := lookupError) st (DividendRow d) cur security source =
  Next {| built :=
            alter (if Js.includes "TAX" (comment existing)
                   then overwriteTaxRecord (div_description d) (parseFloat matched)
                          (if bool_decide (div_type d = "dividendTax") then zero
                           else parseFloat (toFixed 3
                                  (divide (div_amount d) (parseFloat matched))))
                   else addTaxInfo
                          (if bool_decide (div_type d = "dividendTax")
                           then Math_abs (div_amount d) else zero))
              i (built st);
          asked := asked st |}.
Proof.
  intros Hcur Hpil Hprice Hfind. unfold classifyRecord. simpl.
  rewrite Hcur, Hpil, Hprice, Hfind. by destruct (Js.includes "TAX" (comment existing)).
Qed.

Lemma classifyRecord_untitled st (r : @IbkrRecord num) cur security source i a :
  built st !! i = Some a → comment a = "" →
  built (stateOf (lookupError := lookupError)
           (classifyRecord st r cur security source)) !! i = Some a.
Proof.
  intros Hi Ha.
  assert (∀ b, (built st ++ [b]) !! i = Some a) as Hpush.
  { intros b. by apply lookup_app_l_Some. }
  assert (∀ (d : @IbkrDividendRecord num) sym j existing
            (f : @GhostfolioActivity num → @GhostfolioActivity num) m,
            PerShare.exec (div_description d) = Some m →
            findExactDividendMatch d sym (built st) = Some (j, existing) →
            alter f j (built st) !! i = Some a) as Halter.
  { intros d sym j existing f m Hm Hfind.
    apply list_find_Some in Hfind as (Hj & (_ & _ & Hpre & _) & _).
    destruct (decide (j = i)) as [->|Hne]; [|by rewrite list_lookup_alter_ne].
    rewrite Hi in Hj. injection Hj as <-. rewrite Ha in Hpre.
    apply exec_truthy in Hm. apply (substring0_truthy 19) in Hm.
    rewrite <- Hpre in Hm. done. }
  unfold classifyRecord, pushActivity.
  repeat case_match; simpl; first [done | apply Hpush | by eapply Halter].
Qed.

(** X13: an activity with an empty comment, as every trade leaves one,
    is final: no later record of the batch changes it, whatever the loop
    does with the records and wherever it stops. *)
Theorem activity_without_comment_is_final
    (this : IbkrConverter) (st : Progress) (records : list (@IbkrRecord num))
    (i : nat) (a : @GhostfolioActivity num) :
  built st !! i = Some a →
  comment a = "" →
  built (stateOf (processRecords this st records)) !! i = Some a.
Proof.
  intros Hi Ha. revert st Hi.
  induction records as [|r records IH]; intros st Hi; [done|].
  cbn [processRecords].
  assert (built (stateOf (processRecord this st r)) !! i = Some a) as Hstep.
  { unfold processRecord. destruct (isIgnoredRecord r); [done|].
    destruct (resolveSecurity _ _ _) as [[[security|] source|e] sent]; simpl; try done.
    by apply (classifyRecord_untitled {| built := built st; asked := asked st ++ sent |}). }
  destruct (processRecord this st r) as [st1|error st1]; [|done].
  by apply IH.
Qed.

(** X14: a dividend record that comes again after its tax resets the
    fee.  Under the conditions in which the loop merges a dividend record
    and its tax record, the batch of the dividend, the tax and the same
    dividend once more ends in the one activity that the dividend alone
    gives: the fee of the tax is overwritten with zero. *)
Theorem repeated_dividend_resets_fee
    (this : IbkrConverter) (st : Progress)
    (tax dv : @IbkrDividendRecord num) (secT secD : YahooFinanceRecord)
    (source : DataSource) (sentT sentD : list Query) (mT mD : string) :
  div_type tax = "dividendTax" →
  div_type dv ≠ "dividendTax" →
  isIgnoredRecord (DividendRow tax) = false →
  isIgnoredRecord (DividendRow dv) = false →
  Js.truthy (div_currency tax) = true →
  div_currency tax ≠ "GBX" →
  div_currency dv = div_currency tax →
  resolveSecurity this (div_isin tax) (recordCurrency (DividendRow tax)) =
    (Resolved (Some secT) source, sentT) →
  resolveSecurity this (div_isin dv) (recordCurrency (DividendRow dv)) =
    (Resolved (Some secD) source, sentD) →
  sec_symbol secD = sec_symbol secT →
  div_date dv = div_date tax →
  dayjsFormat (div_date tax) = dayjsParsedFormat (div_date tax) →
  Js.substring0 20 (div_description dv) = Js.substring0 20 (div_description tax) →
  Js.includes "in lieu of" (toLocaleLowerCase (div_description tax)) = false →
  Js.includes "in lieu of" (toLocaleLowerCase (div_description dv)) = false →
  PerShare.exec (div_description tax) = Some mT →
  PerShare.exec (div_description dv) = Some mD →
  Js.includes "TAX" (div_description dv) = false →
  findExactDividendMatch dv (sec_symbol secD) (built st) = None →
  processRecords this st [DividendRow dv; DividendRow tax; DividendRow dv] =
    Next {| built := built st ++ [unmergedActivity dv mD secD source];
            asked := ((asked st ++ sentD) ++ sentT) ++ sentD |} ∧
  fee (unmergedActivity dv mD secD source) = Some zero.
Proof.
  intros HtyT HtyD HiT HiD Hcur Hgbx HcurD HrT HrD Hsym Hdate Hfmt Hpre
    HpT HpD HmT HmD HtaxD Hfind.
  assert (Js.truthy (div_currency dv) = true) as HcurD' by by rewrite HcurD.
  assert (recordCurrency (DividendRow dv) = Some (div_currency tax)) as HrcD.
  { rewrite recordCurrency_dividend by done. rewrite HcurD. by rewrite decide_False. }
  assert (findExactDividendMatch tax (sec_symbol secT) (built st) = None) as HfindT.
  { apply list_find_None. apply list_find_None in Hfind.
    eapply Forall_impl; [exact Hfind|]. intros a Ha (H1 & H2 & H3 & H4). apply Ha.
    unfold exactDividendMatch. by rewrite Hsym, HcurD, Hpre, Hdate. }
  assert (fee (unmergedActivity dv mD secD source) = Some zero) as Hfee.
  { unfold unmergedActivity. simpl. by rewrite bool_decide_eq_false_2. }
  split; [|done].
  set (first := unmergedActivity dv mD secD source).
  (* the dividend, for the first time *)
  assert (processRecord this st (DividendRow dv) =
          Next {| built := built st ++ [first]; asked := asked st ++ sentD |}) as H1.
  { rewrite (processRecord_resolved _ _ _ secD source sentD) by done.
    by rewrite (classifyRecord_unmatched _ dv mD). }
  (* its tax *)
  assert (processRecord this
            {| built := built st ++ [first]; asked := asked st ++ sentD |}
            (DividendRow tax) =
          Next {| built := built st ++ [addTaxInfo (Math_abs (div_amount tax)) first];
                  asked := (asked st ++ sentD) ++ sentT |}) as H2.
  { rewrite (processRecord_resolved _ _ _ secT source sentT) by done.
    rewrite (classifyRecord_matched _ tax mT secT source _ (length (built st)) first);
      try done.
    - simpl. rewrite HtaxD. rewrite alter_last.
      by rewrite bool_decide_eq_true_2.
    - simpl. apply find_in_last; [done|].
      unfold exactDividendMatch, first, unmergedActivity. simpl.
      by rewrite HrcD, Hsym, Hpre, Hdate, Hfmt. }
  (* the dividend once more *)
  assert (processRecord this
            {| built := built st ++ [addTaxInfo (Math_abs (div_amount tax)) first];
               asked := (asked st ++ sentD) ++ sentT |}
            (DividendRow dv) =
          Next {| built := built st ++ [first];
                  asked := ((asked st ++ sentD) ++ sentT) ++ sentD |}) as H3.
  { rewrite (processRecord_resolved _ _ _ secD source sentD) by done.
    rewrite (classifyRecord_matched _ dv mD secD source _ (length (built st))
               (addTaxInfo (Math_abs (div_amount tax)) first)); try done.
    - simpl. rewrite HtaxD. rewrite alter_last.
      rewrite bool_decide_eq_false_2 by done.
      do 3 f_equal. unfold addTaxInfo, first, unmergedActivity. simpl.
      by rewrite bool_decide_eq_false_2.
    - simpl. apply find_in_last; [done|].
      unfold exactDividendMatch, first, unmergedActivity. simpl.
      by rewrite HrcD, HcurD, Hdate, Hfmt. }
  cbn [processRecords]. by rewrite H1, H2, H3.
Qed.

End ActivityFacts.

Section ResolutionFacts.

Context {num lookupError : Type} {rt : Runtime num} {svc : SecurityService lookupError}.

(** X15: the override file decides the resolution of every identifier.
    With the valid lines of the file read in order, an identifier that a
    line [isin=isin] names is manual, wherever that line stands; any
    other identifier is looked up by the key of the last line that
    replaces it, and by itself when no line does.  Without a file every
    identifier is looked up by itself. *)
Theorem override_file_decides_resolution
    (content isin : string) (cur : option string) :
  resolveSecurity (lookupError := lookupError)
    (loadIsinOverrides (Some content)) isin cur =
  (if decide ((isin, isin) ∈ overrideEntries content)
   then (Resolved (Some (manualSecurity isin cur)) MANUAL, [])
   else match lastReplacement isin (overrideEntries content) with
        | Some key => (awaitSecurity (overrideQuery key cur), [overrideQuery key cur])
        | None => (awaitSecurity (isinQuery isin cur), [isinQuery isin cur])
        end) ∧
  resolveSecurity (lookupError := lookupError) (loadIsinOverrides None) isin cur =
  (awaitSecurity (isinQuery isin cur), [isinQuery isin cur]).
Proof.
  split; [|done].
  unfold resolveSecurity, isManualIsin, getSymbolOverride.
  rewrite loadIsinOverrides_entries.
  pose proof (manualIsins_foldl (overrideEntries content) noOverrides isin) as Hman.
  rewrite isinOverrides_foldl.
  case_bool_decide as Hm; case_decide as Hd.
  - done.
  - apply Hman in Hm as [Hm|Hm]; [set_solver|done].
  - destruct Hm. apply Hman. by right.
  - destruct (lastReplacement isin (overrideEntries content)) as [key|] eqn:Hlast;
      [|done].
    apply lastReplacement_elem in Hlast as [Hin _].
    apply overrideEntries_truthy in Hin as [_ Hkey]. simpl in Hkey. by rewrite Hkey.
Qed.

(** X16: the cast of a line of the dividend layout.  The keywords of the
    type column are tried in the order buy, sell, dividend, tax, so a
    record has the type [dividendTax] only when its type text, in lower
    case, holds none of the first three; the amount loses its sign; the
    other columns are kept as they are read. *)
Theorem cast_of_dividend_line (ty dt isin desc amt cur : string) :
  let d := dividendOfFields ty dt isin desc amt cur in
  let action := toLocaleLowerCase ty in
  (div_type d = "dividendTax" →
     Js.includes "buy" action = false ∧ Js.includes "sell" action = false ∧
     Js.includes "dividend" action = false) ∧
  (Js.includes "buy" action = false → Js.includes "sell" action = false →
   Js.includes "dividend" action = false → Js.includes "tax" action = true →
     div_type d = "dividendTax") ∧
  div_amount d = Math_abs (parseFloat amt) ∧
  div_date d = dt ∧ div_isin d = isin ∧ div_description d = desc ∧
  div_currency d = cur.
Proof.
  intros d action. unfold d, action, dividendOfFields, castToString, castToNumber, cast.
  simpl. split_and!; try done.
  - destruct (Js.includes "buy" _); [done|].
    destruct (Js.includes "sell" _); [done|].
    by destruct (Js.includes "dividend" _).
  - by intros -> -> -> ->.
Qed.

End ResolutionFacts.

(** X17: what the pattern returns.  The text matched in a description is
    a decimal number that stands in the description immediately before
    [" PER SHARE"], and it is the leftmost such place: the pattern does
    not match at any earlier position of the description. *)
Theorem matched_price_is_leftmost (s m : string) :
  PerShare.exec s = Some m →
  PerShare.decimalNumber m ∧
  ∃ before after,
    s = before +:+ m +:+ " PER SHARE" +:+ after ∧
    ∀ b1 b2, before = b1 +:+ b2 → b2 ≠ "" →
      PerShare.matchHere (b2 +:+ m +:+ " PER SHARE" +:+ after) = None.
Proof.
  induction s as [|c s IH].
  - done.
  - rewrite PerShareFacts.exec_cons.
    destruct (PerShare.matchHere (String c s)) as [m'|] eqn:Hhere.
    + intros [= ->].
      apply PerShareFacts.matchHere_sound in Hhere as [Hm [after Hs]].
      split; [done|]. exists "", after. split; [done|].
      intros b1 b2 Hb Hne. destruct b1, b2; done.
    + intros Hm. destruct (IH Hm) as (Hdec & before & after & -> & Hleft).
      split; [done|]. exists (String c before), after. split; [done|].
      intros [|c1 b1] b2 Hb Hne.
      * change (String c before = b2) in Hb. subst b2. by rewrite app_cons.
      * rewrite app_cons in Hb. injection Hb as -> ->. by apply (Hleft b1).
Qed.

(** * The further properties on the sample rows *)

(** A dividend export: the header has six fields, whatever the lines
    after it hold. *)
Lemma header_alone_decides_layout_witness :
  processHeaders
    ("Type,Date,ISIN,Description,Amount,Currency" +:+ Js.LF +:+
     "a,b,c,d,e,f,g,h,i" +:+ Js.LF +:+ "a,b,c,d,e,f,g,h,i") "," = dividendColumns.
Proof.
  destruct (header_alone_decides_layout
              "Type,Date,ISIN,Description,Amount,Currency"
              ("a,b,c,d,e,f,g,h,i" +:+ Js.LF +:+ "a,b,c,d,e,f,g,h,i") ",")
    as [_ Hlayout]; [evaluated|].
  etransitivity; [exact Hlayout|evaluated].
Defined.

(** A replacement line with white space around the identifier, the sign
    and the key. *)
Lemma override_line_round_trip_witness :
  getSymbolOverride (loadLine noOverrides "  US0378331005 =  AAPL ") "US0378331005" =
  Some "AAPL".
Proof.
  pose proof (override_line_round_trip noOverrides
                "  " "US0378331005" " " "  " "AAPL" " ") as Hline.
  destruct Hline as [Hreplaced _]; [evaluated..|].
  destruct Hreplaced as [Hkey _]; [evaluated|].
  exact Hkey.
Defined.

(** A comment line that looks like a replacement. *)
Lemma malformed_override_line_is_skipped_witness :
  loadLine (loadIsinOverrides (Some Samples.twoReplacements)) "# US0378331005=MSFT" =
  loadIsinOverrides (Some Samples.twoReplacements).
Proof.
  apply malformed_override_line_is_skipped. right; left. evaluated.
Defined.

(** A file of two rows without identifier. *)
Lemma batch_of_ignored_records_succeeds_witness :
  processFileContents noOverrides None (Some [Batches.blankRow; Batches.blankRow]) =
  {| callbacks := [successCallback
       {| meta_date := 1672531200000%Z; meta_version := "v0"; activities := [] |}];
     queries := [] |}.
Proof.
  etransitivity;
    [apply (batch_of_ignored_records_succeeds noOverrides
              [Batches.blankRow; Batches.blankRow]);
     [done|repeat (apply Forall_cons_2; [evaluated|]); apply Forall_nil_2]
    |evaluated].
Defined.

(** A purchase that the service does not know, between a purchase and a
    dividend. *)
Lemma unresolved_record_is_transparent_witness :
  outcome (processRecords noOverrides initial
             [Samples.appleBuy; Batches.unknownBuy; DividendRow Samples.appleDividend]) =
  outcome (processRecords noOverrides initial
             [Samples.appleBuy; DividendRow Samples.appleDividend]).
Proof.
  destruct (unresolved_record_is_transparent noOverrides initial
              [Samples.appleBuy] [DividendRow Samples.appleDividend]
              Batches.unknownBuy YAHOO [Batches.unknownQuery])
    as [Houtcome _]; [evaluated..|].
  exact Houtcome.
Defined.

(** The batch without dividends: three of its five rows give an
    activity. *)
Lemma plain_batch_is_converted_row_by_row_witness :
  built (stateOf (processRecords noOverrides initial Batches.plainBatch)) =
    omap (plainActivity noOverrides) Batches.plainBatch ∧
  length (omap (plainActivity noOverrides) Batches.plainBatch) = 3.
Proof.
  split; [|evaluated].
  pose proof (plain_batch_is_converted_row_by_row noOverrides initial
                Batches.plainBatch) as Hbatch.
  assert (processRecords noOverrides initial Batches.plainBatch =
          Next (stateOf (processRecords noOverrides initial Batches.plainBatch)))
    as Hrun by evaluated.
  rewrite Hrun in Hbatch.
  apply Hbatch. repeat (apply Forall_cons_2; [evaluated|]). apply Forall_nil_2.
Defined.

(** The purchase of Apple shares stays as it is under the dividend of
    Apple and its tax. *)
Lemma activity_without_comment_is_final_witness :
  built (stateOf (processRecords noOverrides Samples.afterAppleBuy
                    [DividendRow Samples.appleDividend; DividendRow Samples.appleTax;
                     Samples.appleBuy])) !! 0 =
  Some Batches.boughtApple.
Proof.
  apply (activity_without_comment_is_final noOverrides Samples.afterAppleBuy
           [DividendRow Samples.appleDividend; DividendRow Samples.appleTax;
            Samples.appleBuy] 0 Batches.boughtApple); evaluated.
Defined.

(** The dividend of Apple, its tax, and the dividend again: the fee of
    the tax is gone. *)
Lemma repeated_dividend_resets_fee_witness :
  processRecords noOverrides initial
    [DividendRow Samples.appleDividend; DividendRow Samples.appleTax;
     DividendRow Samples.appleDividend] =
  Next {| built :=
            [ {| accountId := Some "my-account";
                 comment := div_description Samples.appleDividend;
                 fee := Some (Exact.Finite 0);
                 quantity := Some (Exact.Finite 10);
                 type := Some dividend;
                 unitPrice := Some (Exact.Finite (6 # 25));
                 currency := Some "USD";
                 dataSource := YAHOO;
                 date := "2023-01-05T00:00:00+00:00";
                 symbol := "AAPL" |} ];
          asked := [Samples.appleQuery; Samples.appleQuery; Samples.appleQuery] |}.
Proof.
  destruct (repeated_dividend_resets_fee noOverrides initial
              Samples.appleTax Samples.appleDividend Exact.apple Exact.apple
              YAHOO [Samples.appleQuery] [Samples.appleQuery] "0.24" "0.24")
    as [Hbatch _]; [evaluated..|].
  etransitivity; [exact Hbatch|evaluated].
Defined.

(** The price of the Apple dividend. *)
Lemma matched_price_is_leftmost_witness :
  PerShare.exec (div_description Samples.appleDividend) = Some "0.24" ∧
  PerShare.decimalNumber "0.24".
Proof.
  split; [evaluated|].
  destruct (matched_price_is_leftmost (div_description Samples.appleDividend) "0.24")
    as [Hnumber _]; [evaluated|].
  exact Hnumber.
Defined.
